(** * PotionsMongoDB: a shallow embedding of the HTTP service

    The development follows the three source files that carry behaviour:
    - [middleware.js]   the cookie/JWT gatekeeper [authMiddleware];
    - [auth.routes.js]  registration, login and logout;
    - [router.js]       the potion query, analytics and creation handlers.

    Express handlers are modelled as functions from a request and a [World]
    (the two collections of the document store, its reachability, the log of
    store calls issued so far) to an outcome and a new [World].  Third-party
    libraries (jsonwebtoken, bcrypt, the [sanitize] package, the MongoDB
    accumulator evaluator) are section variables; the handlers are
    transcribed from the source. *)

From Stdlib Require Import List String Ascii Bool Arith ZArith QArith Lia Lqa.
Import ListNotations.
Close Scope Q_scope.
Open Scope string_scope.
Open Scope nat_scope.

Set Implicit Arguments.

(* ================================================================= *)
(** ** JavaScript values and strings *)

Module Js.

(** A JavaScript string is a sequence of code units; the model keeps the
    ASCII range, where one [ascii] is one code unit. *)

(** [\s] restricted to ASCII: TAB, LF, VT, FF, CR and SPACE. *)
Definition is_space (c : ascii) : bool :=
  let n := nat_of_ascii c in
  ((9 <=? n) && (n <=? 13)) || (n =? 32).

Fixpoint ltrim (s : string) : string :=
  match s with
  | String c r => if is_space c then ltrim r else s
  | EmptyString => EmptyString
  end.

(** [rtrim] drops the trailing run of white space: a character is kept when
    it is not white space or when something is kept after it. *)
Fixpoint rtrim (s : string) : string :=
  match s with
  | EmptyString => EmptyString
  | String c r =>
      match rtrim r with
      | EmptyString => if is_space c then EmptyString else String c EmptyString
      | r' => String c r'
      end
  end.

(** [String.prototype.trim], also validator.js's [trim] without [chars]. *)
Definition trim (s : string) : string := rtrim (ltrim s).

(** The values a cookie, a query parameter or a body field can hold after
    cookie-parser, qs and the JSON body parser: nothing, a string, an array
    of strings, or some other object. *)
Inductive value : Type :=
| Undefined
| Str (s : string)
| Arr (l : list string)
| Obj.

(** ToBoolean: [undefined] and the empty string are falsy. *)
Definition truthy (v : value) : bool :=
  match v with
  | Undefined => false
  | Str s => negb (s =? EmptyString)%string
  | Arr _ | Obj => true
  end.

(** [typeof v === 'string'] *)
Definition is_string (v : value) : bool :=
  match v with Str _ => true | _ => false end.

(** ToString: arrays join their elements with a comma. *)
Definition to_string (v : value) : string :=
  match v with
  | Undefined => "undefined"
  | Str s => s
  | Arr l => String.concat "," l
  | Obj => "[object Object]"
  end.

(** A thrown error: the fields the handlers inspect. *)
Record Error : Type := mkError {
  err_name : string;
  err_code : option Z;
  err_message : string
}.

(** *** Numbers

    A JavaScript number is NaN, an infinity or a finite value.  Finite
    values are kept as exact rationals: rounding to binary64 is not
    modelled, only the order of numbers and the NaN case are. *)
Inductive number : Type :=
| NaN
| NegInfinity
| Finite (q : Q)
| PosInfinity.

Definition isNaN (n : number) : bool :=
  match n with NaN => true | _ => false end.

(** [a <= b] on numbers; false as soon as one side is NaN. *)
Definition leb (a b : number) : bool :=
  match a, b with
  | NaN, _ | _, NaN => false
  | NegInfinity, _ => true
  | _, PosInfinity => true
  | Finite x, Finite y => Qle_bool x y
  | _, _ => false
  end.

Definition is_digit (c : ascii) : bool :=
  let n := nat_of_ascii c in (48 <=? n) && (n <=? 57).

(** Longest prefix of decimal digits, and what follows it. *)
Fixpoint span_digits (s : string) : string * string :=
  match s with
  | String c r =>
      if is_digit c
      then let (d, rest) := span_digits r in (String c d, rest)
      else (EmptyString, s)
  | EmptyString => (EmptyString, EmptyString)
  end.

Fixpoint digits_value (acc : Z) (s : string) : Z :=
  match s with
  | String c r => digits_value (10 * acc + (Z.of_nat (nat_of_ascii c) - 48)) r
  | EmptyString => acc
  end.

(** ExponentPart: [e] or [E], an optional sign, at least one digit;
    anything else is not part of the literal and counts as exponent 0. *)
Definition exponent (s : string) : Z :=
  match s with
  | String c r =>
      if (c =? "e")%char || (c =? "E")%char then
        let (neg, r') :=
          match r with
          | String "-" r' => (true, r')
          | String "+" r' => (false, r')
          | _ => (false, r)
          end in
        let (d, _) := span_digits r' in
        match d with
        | EmptyString => 0%Z
        | _ => if neg then (- digits_value 0 d)%Z else digits_value 0 d
        end
      else 0%Z
  | EmptyString => 0%Z
  end.

(** [m * 10^e] as a rational. *)
Definition scale10 (m e : Z) : Q :=
  if (0 <=? e)%Z then inject_Z (m * 10 ^ e)
  else Qmake m (Z.to_pos (10 ^ (- e))).

(** The unsigned part of a StrDecimalLiteral, read as a prefix. *)
Definition parse_unsigned (s : string) : number :=
  let (ip, r1) := span_digits s in
  let (fp, r2) :=
    match r1 with
    | String "." r => span_digits r
    | _ => (EmptyString, r1)
    end in
  match ip, fp with
  | EmptyString, EmptyString =>
      if String.prefix "Infinity" s then PosInfinity else NaN
  | _, _ =>
      Finite (scale10 (digits_value 0 (ip ++ fp))
                      (exponent r2 - Z.of_nat (String.length fp)))
  end.

Definition negate (n : number) : number :=
  match n with
  | NaN => NaN
  | NegInfinity => PosInfinity
  | PosInfinity => NegInfinity
  | Finite q => Finite (- q)
  end.

(** The global [parseFloat]: ToString, skip leading white space, read the
    longest prefix that is a decimal literal, NaN if there is none. *)
Definition parseFloat (v : value) : number :=
  match ltrim (to_string v) with
  | String "-" r => negate (parse_unsigned r)
  | String "+" r => parse_unsigned r
  | s => parse_unsigned s
  end.

End Js.

(* ================================================================= *)
(** ** validator.js / express-validator, as far as the routes use them *)

Module Validator.

(** validator.js [escape]: the eight HTML-significant characters are
    replaced by entities; [&] first, so entities are not escaped twice. *)
Definition escape_char (c : ascii) : string :=
  if (c =? "&")%char then "&amp;"
  else if (c =? ascii_of_nat 34)%char then "&quot;"
  else if (c =? "'")%char then "&#x27;"
  else if (c =? "<")%char then "&lt;"
  else if (c =? ">")%char then "&gt;"
  else if (c =? "/")%char then "&#x2F;"
  else if (c =? "\")%char then "&#x5C;"
  else if (c =? "`")%char then "&#96;"
  else String c EmptyString.

Fixpoint escape (s : string) : string :=
  match s with
  | String c r => escape_char c ++ escape r
  | EmptyString => EmptyString
  end.

(** [notEmpty()]: the value has at least one character. *)
Definition notEmpty (s : string) : bool := negb (String.length s =? 0).

(** [isLength({min, max})]; [max] may be left out. *)
Definition isLength (min : nat) (max : option nat) (s : string) : bool :=
  (min <=? String.length s) &&
  match max with
  | Some m => String.length s <=? m
  | None => true
  end.

(** One entry of [validationResult(req).array()]. *)
Record FieldError : Type := mkFieldError {
  fe_path : string;
  fe_msg : string;
  fe_value : string
}.

(** A validator of a chain followed by [.withMessage(msg)]: it reports when
    it fails and the chain goes on (no [bail]). *)
Definition check (ok : bool) (path msg value : string) : list FieldError :=
  if ok then [] else [mkFieldError path msg value].

(** A field that is absent is validated as the empty string. *)
Definition field_string (v : option string) : string :=
  match v with Some s => s | None => EmptyString end.

End Validator.

(* ================================================================= *)
(** ** The document store *)

(** Modelled from the spec: [potion.model.js] is not part of the sources;
    the fields are those of the Potion of the data model (name, price,
    score, ingredients, ratings.strength, ratings.flavor, tryDate,
    categories, vendor_id), numbers being finite. *)
Record PotionFields : Type := mkPotionFields {
  name : string;
  price : Q;
  score : Q;
  ingredients : list string;
  strength : Q;
  flavor : Q;
  tryDate : string;
  categories : list string;
  vendor_id : string
}.

(** A stored potion: the fields and the generated identifier. *)
Record Potion : Type := mkPotion {
  potion_id : nat;
  fields : PotionFields
}.

(** Modelled from the spec: [user.model.js] is not part of the sources; a
    user is a unique display name and a one-way hash of the password. *)
Record User : Type := mkUser {
  user_id : nat;
  user_name : string;
  user_hash : string
}.

(** The filters the router passes to [Potion.find]. *)
Inductive Filter : Type :=
| FindAll                                  (* find() *)
| FindAllNames                             (* find({}, 'name') *)
| FindVendor (vendorId : string)           (* find({ vendor_id: vendorId }) *)
| FindPrice (gte lte : Js.number).         (* find({ price: { $gte, $lte } }) *)

(** The pipelines the router passes to [Potion.aggregate]. *)
Inductive Pipeline : Type :=
| AvgScoreByVendor
    (* [{ $group: { _id: "$vendor_id", averageScore: { $avg: "$score" } } }] *)
| AvgScoreByCategory
    (* [{ $unwind: "$categories" },
        { $group: { _id: "$categories", averageScore: { $avg: "$score" } } }] *)
| StrengthFlavorRatio
    (* [{ $project: { _id: 0, name: 1,
          ratio: { $divide: ["$ratings.strength", "$ratings.flavor"] } } }] *)
| GroupStage (id_expr acc_name acc_op acc_arg : string).
    (* [{ $group: { _id: id_expr, [acc_name]: { [acc_op]: acc_arg } } }] *)

(** A call sent to the store. *)
Inductive StoreCall : Type :=
| PotionFind (f : Filter)
| PotionDistinct (field : string)
| PotionAggregate (p : Pipeline)
| PotionSave (p : PotionFields)
| UserSave (name password : string)
| UserFindOne (name : option string).

(** The world a handler runs in: the two collections, whether the store
    can be reached ([outage] holds the driver's message when it cannot),
    the next generated identifier, and the calls issued so far. *)
Record World : Type := mkWorld {
  potions : list Potion;
  users : list User;
  outage : option string;
  fresh : nat;
  issued : list StoreCall
}.

(** What a request leaves in the store. *)
Definition collections (w : World) : list Potion * list User :=
  (potions w, users w).

(** Awaiting a store promise: it rejects with an error or resolves, and the
    world moves on. *)
Definition Store (A : Type) : Type := World -> (Js.Error + A) * World.

Definition log (c : StoreCall) (w : World) : World :=
  mkWorld (potions w) (users w) (outage w) (fresh w) (issued w ++ [c]).

Definition network_error (msg : string) : Js.Error :=
  Js.mkError "MongoNetworkError" None msg.

(** A read: the call is logged; it rejects when the store is unreachable or
    when the query itself is refused, and never touches a collection. *)
Definition read {A : Type} (c : StoreCall)
    (answer : list Potion -> list User -> Js.Error + A) : Store A :=
  fun w =>
    match outage w with
    | Some msg => (inl (network_error msg), log c w)
    | None => (answer (potions w) (users w), log c w)
    end.

(** What a handler gets back from an aggregation. *)
Unset Elimination Schemes.
Inductive Json : Type :=
| JNull
| JNumber (q : Q)
| JString (s : string)
| JArray (l : list Json)
| JObject (l : list (string * Json)).
Set Elimination Schemes.

Inductive Rows : Type :=
| Averages (l : list (string * Q))     (* [{ _id, averageScore }] *)
| Ratios (l : list (string * Q))       (* [{ name, ratio }] *)
| Documents (l : list Json).

Module Db.

Definition potion_matches (f : Filter) (p : Potion) : bool :=
  match f with
  | FindAll | FindAllNames => true
  | FindVendor v => (vendor_id (fields p) =? v)%string
  | FindPrice lo hi =>
      Js.leb lo (Js.Finite (price (fields p))) &&
      Js.leb (Js.Finite (price (fields p))) hi
  end.

(** Mongoose casts the filter against the schema before it is sent: a NaN
    where the schema has a Number is a CastError. *)
Definition cast_error (path : string) : Js.Error :=
  Js.mkError "CastError" None
    ("Cast to Number failed for value NaN at path " ++ path).

Definition cast_filter (f : Filter) : option Js.Error :=
  match f with
  | FindPrice lo hi =>
      if Js.isNaN lo || Js.isNaN hi then Some (cast_error "price") else None
  | _ => None
  end.

(** [Potion.find(filter)] *)
Definition find (f : Filter) : Store (list Potion) :=
  fun w =>
    match cast_filter f with
    | Some e => (inl e, w)
    | None => read (PotionFind f) (fun ps _ => inr (filter (potion_matches f) ps)) w
    end.

(** Values of a list, each once, in order of first appearance. *)
Fixpoint distinct_values (l : list string) : list string :=
  match l with
  | [] => []
  | x :: r => x :: filter (fun y => negb (y =? x)%string) (distinct_values r)
  end.

(** [Potion.distinct('categories')]: array fields contribute each of their
    elements. *)
Definition distinct_categories : Store (list string) :=
  read (PotionDistinct "categories")
       (fun ps _ => inr (distinct_values (flat_map (fun p => categories (fields p)) ps))).

(** [$unwind: "$categories"]: one row per element of the array; the row
    keeps what the next stage reads, the category and the score. *)
Definition unwind_categories (ps : list Potion) : list (string * Q) :=
  flat_map (fun p => map (fun c => (c, score (fields p))) (categories (fields p))) ps.

Definition sum (l : list Q) : Q := fold_right Qplus (inject_Z 0) l.

(** [$avg] over the values of a group (a group is never empty). *)
Definition average (l : list Q) : Q :=
  Qdiv (sum l) (inject_Z (Z.of_nat (List.length l))).

Definition values_of (k : string) (rows : list (string * Q)) : list Q :=
  map snd (filter (fun r => (fst r =? k)%string) rows).

(** [$group: { _id: key, averageScore: { $avg: value } }] over rows
    [(key, value)]: one output row per distinct key. *)
Definition group_avg (rows : list (string * Q)) : list (string * Q) :=
  map (fun k => (k, average (values_of k rows))) (distinct_values (map fst rows)).

Definition divide_by_zero : Js.Error :=
  Js.mkError "MongoServerError" (Some 16608%Z) "can't $divide by zero".

(** [$project] with [$divide]: the server refuses a zero divisor. *)
Fixpoint project_ratio (ps : list Potion) : Js.Error + list (string * Q) :=
  match ps with
  | [] => inr []
  | p :: r =>
      if Qeq_bool (flavor (fields p)) (inject_Z 0) then inl divide_by_zero
      else match project_ratio r with
           | inl e => inl e
           | inr l => inr ((name (fields p), Qdiv (strength (fields p)) (flavor (fields p))) :: l)
           end
  end.

Definition duplicate_key (n : string) : Js.Error :=
  Js.mkError "MongoServerError" (Some 11000%Z)
    ("E11000 duplicate key error collection: users index: name_1 dup key: " ++ n).

(** [User.findOne({ name })]: the first document with exactly that name;
    no document has a null name. *)
Definition first_named (n : option string) (us : list User) : option User :=
  match n with
  | Some s => List.find (fun u => (user_name u =? s)%string) us
  | None => None
  end.

Definition findOne (n : option string) : Store (option User) :=
  read (UserFindOne n) (fun _ us => inr (first_named n us)).

Section Engine.

(** The server's evaluation of one [$group] stage whose key expression,
    accumulator name, operator and argument are arbitrary strings. *)
Variable mongo_group :
  string -> string -> string -> string -> list Potion -> Js.Error + list Json.

(** bcrypt's salted hash; the salt is drawn from the world. *)
Variable hashPassword : nat -> string -> string.

Definition run_pipeline (p : Pipeline) (ps : list Potion) : Js.Error + Rows :=
  match p with
  | AvgScoreByVendor =>
      inr (Averages (group_avg (map (fun p => (vendor_id (fields p), score (fields p))) ps)))
  | AvgScoreByCategory =>
      inr (Averages (group_avg (unwind_categories ps)))
  | StrengthFlavorRatio =>
      match project_ratio ps with
      | inl e => inl e
      | inr l => inr (Ratios l)
      end
  | GroupStage id_expr acc_name acc_op acc_arg =>
      match mongo_group id_expr acc_name acc_op acc_arg ps with
      | inl e => inl e
      | inr l => inr (Documents l)
      end
  end.

(** [Potion.aggregate(pipeline)] *)
Definition aggregate (p : Pipeline) : Store Rows :=
  read (PotionAggregate p) (fun ps _ => run_pipeline p ps).

(** [new Potion(body).save()]: the document is stored as given, with a
    generated identifier, and returned. *)
Definition save_potion (b : PotionFields) : Store Potion :=
  fun w =>
    match outage w with
    | Some msg => (inl (network_error msg), log (PotionSave b) w)
    | None =>
        let p := mkPotion (fresh w) b in
        (inr p, mkWorld (potions w ++ [p]) (users w) (outage w)
                        (S (fresh w)) (issued w ++ [PotionSave b]))
    end.

(** Modelled from the spec: [new User({ name, password }).save()] of
    [user.model.js], which is not part of the sources.  The name is unique
    in the store: a name that is already there is refused with the
    duplicate-key error (code 11000) and nothing changes; otherwise the
    password is hashed with a fresh salt and one document is added. *)
Definition save_user (n pw : string) : Store User :=
  fun w =>
    match outage w with
    | Some msg => (inl (network_error msg), log (UserSave n pw) w)
    | None =>
        match first_named (Some n) (users w) with
        | Some _ => (inl (duplicate_key n), log (UserSave n pw) w)
        | None =>
            let u := mkUser (fresh w) n (hashPassword (fresh w) pw) in
            (inr u, mkWorld (potions w) (users w ++ [u]) (outage w)
                            (S (fresh w)) (issued w ++ [UserSave n pw]))
        end
    end.

End Engine.
End Db.

(* ================================================================= *)
(** ** Express: requests, responses, handlers *)

Module Express.

(** The claims of a verified token; [{ id, name }] is what login signs. *)
Record Payload : Type := mkPayload {
  sub_id : nat;
  sub_name : string
}.

Record Claims : Type := mkClaims {
  payload : Payload;
  iat : Z;
  exp : Z
}.

Record Request (B : Type) : Type := mkRequest {
  cookies : option (list (string * Js.value));
  query : list (string * Js.value);
  params : string -> string;
  body : B;
  user : option Claims
}.

Arguments mkRequest {B}.
Arguments cookies {B}.
Arguments query {B}.
Arguments params {B}.
Arguments body {B}.
Arguments user {B}.

Fixpoint lookup (k : string) (l : list (string * Js.value)) : Js.value :=
  match l with
  | [] => Js.Undefined
  | (k', v) :: r => if (k' =? k)%string then v else lookup k r
  end.

(** [req.cookies?.[k]] *)
Definition get_cookie {B} (req : Request B) (k : string) : Js.value :=
  match cookies req with
  | Some c => lookup k c
  | None => Js.Undefined
  end.

(** [req.query[k]] *)
Definition get_query {B} (req : Request B) (k : string) : Js.value :=
  lookup k (query req).

Definition set_user {B} (c : Claims) (req : Request B) : Request B :=
  mkRequest (cookies req) (query req) (params req) (body req) (Some c).

Record CookieOptions : Type := mkCookieOptions {
  httpOnly : bool;
  sameSite : string;
  secure : bool;
  maxAge : Z
}.

Record Cookie : Type := mkCookie {
  cookie_name : string;
  cookie_value : string;
  cookie_options : CookieOptions
}.

Inductive Body : Type :=
| JsonError (msg : string)                       (* { error: msg } *)
| JsonMessage (msg : string)                     (* { message: msg } *)
| JsonErrors (l : list Validator.FieldError)     (* { errors: [...] } *)
| JsonPotions (l : list Potion)
| JsonPotion (p : Potion)
| JsonNames (l : list string)
| JsonDistinct (n : nat)                         (* { distinctCategories: n } *)
| JsonRows (r : Rows).

Record Response : Type := mkResponse {
  res_status : nat;
  res_body : option Body;
  res_cookies : list Cookie;
  res_cleared : list string
}.

(** A fresh response: status 200, nothing sent yet. *)
Definition res : Response := mkResponse 200 None [] [].

Definition status (code : nat) (r : Response) : Response :=
  mkResponse code (res_body r) (res_cookies r) (res_cleared r).

Definition json (b : Body) (r : Response) : Response :=
  mkResponse (res_status r) (Some b) (res_cookies r) (res_cleared r).

Definition cookie (n v : string) (o : CookieOptions) (r : Response) : Response :=
  mkResponse (res_status r) (res_body r) (res_cookies r ++ [mkCookie n v o]) (res_cleared r).

Definition clearCookie (n : string) (r : Response) : Response :=
  mkResponse (res_status r) (res_body r) (res_cookies r) (res_cleared r ++ [n]).

(** How a handler ends: a response is sent, or a rejection escapes it. *)
Inductive Outcome : Type :=
| Sent (r : Response)
| Unhandled (e : Js.Error).

Definition Handler : Type := World -> Outcome * World.

(** How a middleware ends: it answers itself or calls [next()]. *)
Inductive Gate (B : Type) : Type :=
| Rejected (r : Response)
| Next (req : Request B).

Arguments Rejected {B}.
Arguments Next {B}.

(** [try { const a = await m; ok(a) } catch (err) { handle(err) }] *)
Definition try_await {A : Type} (m : Store A)
    (ok : A -> Response) (handle : Js.Error -> Response) : Handler :=
  fun w =>
    match m w with
    | (inr a, w') => (Sent (ok a), w')
    | (inl err, w') => (Sent (handle err), w')
    end.

(** [process.env], as far as the service reads it. *)
Record Env : Type := mkEnv {
  env_JWT_SECRET : option string;
  env_COOKIE_NAME : option string
}.

(** [process.env.X || fallback] *)
Definition or_default (v : option string) (fallback : string) : string :=
  match v with
  | Some s => if (s =? EmptyString)%string then fallback else s
  | None => fallback
  end.

End Express.

Notation "x |> f" := (f x) (at level 45, left associativity, only parsing).

(* ================================================================= *)
(** ** middleware.js *)

Module Middleware.
Import Express.

Section WithJwt.

(** jsonwebtoken's [verify(token, secret)] at the time of the request. *)
Variable jwt_verify : string -> option string -> Js.Error + Claims.
Variable env : Env.

Definition JWT_SECRET : option string := env_JWT_SECRET env.
Definition COOKIE_NAME : string := "demo_node+mongo_token".

Definition msg_missing : string := "Token d’authentification manquant ou invalide".
Definition msg_expired : string := "Session expirée, veuillez vous reconnecter.".
Definition msg_invalid : string := "Jeton non valide.".
Definition msg_failure : string := "Erreur d’authentification".

Definition authMiddleware {B} (req : Request B) : Gate B :=
  let token := get_cookie req COOKIE_NAME in
  if negb (Js.truthy token) || negb (Js.is_string token)
     || (Js.trim (Js.to_string token) =? EmptyString)%string
  then Rejected (res |> status 401 |> json (JsonError msg_missing))
  else
    match jwt_verify (Js.to_string token) JWT_SECRET with
    | inr claims => Next (set_user claims req)
    | inl err =>
        if (Js.err_name err =? "TokenExpiredError")%string
        then Rejected (res |> status 401 |> json (JsonError msg_expired))
        else if (Js.err_name err =? "JsonWebTokenError")%string
        then Rejected (res |> status 401 |> json (JsonError msg_invalid))
        else Rejected (res |> status 500 |> json (JsonError msg_failure))
    end.

End WithJwt.
End Middleware.

(* ================================================================= *)
(** ** auth.routes.js *)

Module AuthRoutes.
Import Express.

(** The JSON body of the two POST routes; a field may be absent. *)
Record Credentials : Type := mkCredentials {
  cred_name : option string;
  cred_password : option string
}.

(** [body('name').trim().escape()] and [body('password').trim()]: the
    sanitizers rewrite the body fields before the handler reads them. *)
Definition sanitized_name (b : Credentials) : string :=
  Validator.escape (Js.trim (Validator.field_string (cred_name b))).

Definition sanitized_password (b : Credentials) : string :=
  Js.trim (Validator.field_string (cred_password b)).

Definition msg_name_required : string := "Le nom d’utilisateur est requis.".
Definition msg_name_length : string := "Doit faire entre 3 et 30 caractères.".
Definition msg_password_required : string := "Le mot de passe est requis.".
Definition msg_password_length : string := "Minimum 6 caractères.".

(** [validationResult(req).array()] for the two chains of /register. *)
Definition validationResult (b : Credentials) : list Validator.FieldError :=
  let n := sanitized_name b in
  let pw := sanitized_password b in
  Validator.check (Validator.notEmpty n) "name" msg_name_required n ++
  Validator.check (Validator.isLength 3 (Some 30) n) "name" msg_name_length n ++
  Validator.check (Validator.notEmpty pw) "password" msg_password_required pw ++
  Validator.check (Validator.isLength 6 None pw) "password" msg_password_length pw.

Definition isEmpty {A} (l : list A) : bool :=
  match l with [] => true | _ => false end.

Definition code_is (c : Z) (e : Js.Error) : bool :=
  match Js.err_code e with
  | Some c' => (c' =? c)%Z
  | None => false
  end.

Section WithLibraries.

Variable env : Env.
(** jsonwebtoken's [sign(payload, secret, { expiresIn })]. *)
Variable jwt_sign : Payload -> string -> string -> string.
(** bcrypt's salted hash, used by the pre-save hook of the User model. *)
Variable hashPassword : nat -> string -> string.
(** Modelled from the spec: [user.comparePassword(password)] of
    [user.model.js], which is not part of the sources: the comparison of a
    raw password with the stored hash, a boolean. *)
Variable comparePassword : User -> option string -> bool.
(** [req.bodyString(key)] of the [sanitize] middleware, applied to the
    field; [None] is [null]. *)
Variable bodyString : option string -> option string.

Definition JWT_SECRET : string := or_default (env_JWT_SECRET env) "dev_secret".
Definition COOKIE_NAME : string := or_default (env_COOKIE_NAME env) "demo_node+mongo_token".

(** POST /auth/register *)
Definition post_register (req : Request Credentials) : Handler :=
  fun w =>
    let errors := validationResult (body req) in
    if negb (isEmpty errors)
    then (Sent (res |> status 400 |> json (JsonErrors errors)), w)
    else
      let name := sanitized_name (body req) in
      let password := sanitized_password (body req) in
      try_await (Db.save_user hashPassword name password)
        (fun _ => res |> status 201 |> json (JsonMessage "Utilisateur créé"))
        (fun err =>
           if code_is 11000 err
           then res |> status 500 |> json (JsonError "Erreur système")
           else res |> status 400 |> json (JsonError (Js.err_message err)))
        w.

Definition session_cookie : CookieOptions :=
  mkCookieOptions true "strict" false (24 * 60 * 60 * 1000)%Z.

(** POST /auth/login: nothing catches a rejection of [findOne]. *)
Definition post_login (req : Request Credentials) : Handler :=
  fun w =>
    let name := bodyString (cred_name (body req)) in
    let password := bodyString (cred_password (body req)) in
    match Db.findOne name w with
    | (inl err, w') => (Unhandled err, w')
    | (inr found, w') =>
        match found with
        | None =>
            (Sent (res |> status 401 |> json (JsonError "Identifiants invalides")), w')
        | Some user =>
            if negb (comparePassword user password)
            then (Sent (res |> status 401 |> json (JsonError "Identifiants invalides")), w')
            else
              let token :=
                jwt_sign (mkPayload (user_id user) (user_name user)) JWT_SECRET "1d" in
              (Sent (res |> cookie COOKIE_NAME token session_cookie
                         |> json (JsonMessage "Connecté avec succès")), w')
        end
    end.

(** GET /auth/logout *)
Definition get_logout {B} (req : Request B) : Handler :=
  fun w => (Sent (res |> clearCookie COOKIE_NAME |> json (JsonMessage "Déconnecté")), w).

End WithLibraries.
End AuthRoutes.

(* ================================================================= *)
(** ** router.js *)

Module Router.
Import Express.

Definition server_error (err : Js.Error) : Response :=
  res |> status 500 |> json (JsonError (Js.err_message err)).

(** GET /potions *)
Definition get_potions {B} (req : Request B) : Handler :=
  try_await (Db.find FindAll)
    (fun potions => res |> json (JsonPotions potions))
    server_error.

(** GET /potions/names *)
Definition get_names {B} (req : Request B) : Handler :=
  try_await (Db.find FindAllNames)
    (fun names => res |> json (JsonNames (map (fun p => name (fields p)) names)))
    server_error.

(** GET /potions/vendor/:vendor_id *)
Definition get_vendor {B} (req : Request B) : Handler :=
  let vendorId := params req "vendor_id" in
  try_await (Db.find (FindVendor vendorId))
    (fun potions => res |> json (JsonPotions potions))
    server_error.

(** GET /potions/price-range?min=X&max=Y *)
Definition get_price_range {B} (req : Request B) : Handler :=
  let min := get_query req "min" in
  let max := get_query req "max" in
  try_await (Db.find (FindPrice (Js.parseFloat min) (Js.parseFloat max)))
    (fun potions => res |> json (JsonPotions potions))
    server_error.

(** GET /potions/analytics/distinct-categories *)
Definition get_distinct_categories {B} (req : Request B) : Handler :=
  try_await Db.distinct_categories
    (fun categories => res |> json (JsonDistinct (List.length categories)))
    server_error.

Definition msg_missing_parameters : string :=
  "Missing required query parameters: groupBy, metric, field".

Section WithEngine.

Variable mongo_group :
  string -> string -> string -> string -> list Potion -> Js.Error + list Json.
Variable jwt_verify : string -> option string -> Js.Error + Claims.
Variable env : Env.

(** GET /potions/analytics/average-score-by-vendor *)
Definition get_average_score_by_vendor {B} (req : Request B) : Handler :=
  try_await (Db.aggregate mongo_group AvgScoreByVendor)
    (fun result => res |> json (JsonRows result))
    server_error.

(** GET /potions/analytics/average-score-by-category *)
Definition get_average_score_by_category {B} (req : Request B) : Handler :=
  try_await (Db.aggregate mongo_group AvgScoreByCategory)
    (fun result => res |> json (JsonRows result))
    server_error.

(** GET /potions/analytics/strength-flavor-ratio *)
Definition get_strength_flavor_ratio {B} (req : Request B) : Handler :=
  try_await (Db.aggregate mongo_group StrengthFlavorRatio)
    (fun result => res |> json (JsonRows result))
    server_error.

(** GET /potions/analytics/search?groupBy=&metric=&field= *)
Definition get_search {B} (req : Request B) : Handler :=
  let groupBy := get_query req "groupBy" in
  let metric := get_query req "metric" in
  let field := get_query req "field" in
  if negb (Js.truthy groupBy) || negb (Js.truthy metric) || negb (Js.truthy field)
  then fun w => (Sent (res |> status 400 |> json (JsonError msg_missing_parameters)), w)
  else
    let aggregation :=
      GroupStage ("$" ++ Js.to_string groupBy) (Js.to_string metric)
                 ("$" ++ Js.to_string metric) ("$" ++ Js.to_string field) in
    try_await (Db.aggregate mongo_group aggregation)
      (fun result => res |> json (JsonRows result))
      server_error.

(** POST /potions, behind [authMiddleware] *)
Definition post_potion (req : Request PotionFields) : Handler :=
  fun w =>
    match Middleware.authMiddleware jwt_verify env req with
    | Rejected r => (Sent r, w)
    | Next req' =>
        try_await (Db.save_potion (body req'))
          (fun savedPotion => res |> status 201 |> json (JsonPotion savedPotion))
          (fun err => res |> status 400 |> json (JsonError (Js.err_message err)))
          w
    end.

(** The GET routes of the router, in the order of the file. *)
Inductive GetRoute : Type :=
| Potions
| Names
| Vendor
| PriceRange
| DistinctCategories
| AverageScoreByVendor
| AverageScoreByCategory
| StrengthFlavorRatioRoute
| Search.

Definition get {B} (route : GetRoute) (req : Request B) : Handler :=
  match route with
  | Potions => get_potions req
  | Names => get_names req
  | Vendor => get_vendor req
  | PriceRange => get_price_range req
  | DistinctCategories => get_distinct_categories req
  | AverageScoreByVendor => get_average_score_by_vendor req
  | AverageScoreByCategory => get_average_score_by_category req
  | StrengthFlavorRatioRoute => get_strength_flavor_ratio req
  | Search => get_search req
  end.

End WithEngine.
End Router.

(* ================================================================= *)
(** ** Vocabulary of the statements *)

(** The same world with the store reachable ([None]) or not. *)
Definition set_outage (o : option string) (w : World) : World :=
  mkWorld (potions w) (users w) o (fresh w) (issued w).

(** Number of user documents with a given name. *)
Definition count_named (n : string) (us : list User) : nat :=
  List.length (filter (fun u => (user_name u =? n)%string) us).

(** A status of the 2xx class. *)
Definition is_2xx (code : nat) : bool := (200 <=? code) && (code <? 300).

(** [lo <= q <= hi] for a finite [q] and bounds that are numbers. *)
Definition within (lo hi : Js.number) (q : Q) : Prop :=
  match lo with
  | Js.NaN | Js.PosInfinity => False
  | Js.NegInfinity => True
  | Js.Finite a => Qle a q
  end /\
  match hi with
  | Js.NaN | Js.NegInfinity => False
  | Js.PosInfinity => True
  | Js.Finite b => Qle q b
  end.

(** The status of the response a handler sent, if it sent one. *)
Definition res_status_of (o : Express.Outcome) : option nat :=
  match o with
  | Express.Sent r => Some (Express.res_status r)
  | Express.Unhandled _ => None
  end.

(** The cookies a client holds after a response, as cookie-parser reads
    them back on the next request. *)
Definition cookie_jar (r : Express.Response) : list (string * Js.value) :=
  map (fun c => (Express.cookie_name c, Js.Str (Express.cookie_value c)))
      (Express.res_cookies r).

(** A predicate on every character of a string. *)
Fixpoint string_forall (f : ascii -> bool) (s : string) : bool :=
  match s with
  | String c r => f c && string_forall f r
  | EmptyString => true
  end.

(** The characters that open markup or close an attribute in HTML. *)
Definition html_significant (c : ascii) : bool :=
  (c =? "<")%char || (c =? ">")%char || (c =? ascii_of_nat 34)%char
  || (c =? "'")%char || (c =? "/")%char || (c =? "\")%char || (c =? "`")%char.

(** The statuses of a set, for an outcome that is a response. *)
Definition status_in (codes : list nat) (o : Express.Outcome) : Prop :=
  exists r, o = Express.Sent r /\ In (Express.res_status r) codes.

(** The answer of /login to credentials it does not accept. *)
Definition invalid_credentials : Express.Response :=
  Express.mkResponse 401 (Some (Express.JsonError "Identifiants invalides")) [] [].

(* ================================================================= *)
(** ** A small instance: libraries, requests and worlds to run the handlers on *)

Module Sample.
Import Express.

Definition env : Env := mkEnv (Some "s3cret") None.

Definition alice_claims : Claims := mkClaims (mkPayload 7 "alice") 1000 87400.

(** A verifier that knows three tokens. *)
Definition jwt_verify (token : string) (secret : option string) : Js.Error + Claims :=
  if (token =? "good")%string then inr alice_claims
  else if (token =? "old")%string
  then inl (Js.mkError "TokenExpiredError" None "jwt expired")
  else if (token =? "early")%string
  then inl (Js.mkError "NotBeforeError" None "jwt not active")
  else inl (Js.mkError "JsonWebTokenError" None "jwt malformed").

(** A signer whose token is the subject name in clear, and its reader. *)
Definition jwt_sign (p : Payload) (secret ttl : string) : string := sub_name p.

Definition jwt_decode_name (token : string) : option string := Some token.

(** A verifier that accepts every non-empty token and reads the subject
    name off it, for the signer above. *)
Definition jwt_verify_name (token : string) (secret : option string) : Js.Error + Claims :=
  if (token =? EmptyString)%string
  then inl (Js.mkError "JsonWebTokenError" None "jwt must be provided")
  else inr (mkClaims (mkPayload 0 token) 0 86400).

Definition hashPassword (salt : nat) (pw : string) : string := "hash:" ++ pw.

Definition comparePassword (u : User) (pw : option string) : bool :=
  match pw with
  | Some s => (user_hash u =? hashPassword 0 s)%string
  | None => false
  end.

Definition bodyString (v : option string) : option string := v.

Definition mongo_group (id_expr acc_name acc_op acc_arg : string) (ps : list Potion)
  : Js.Error + list Json :=
  if (acc_op =? "$count")%string
  then inr (map (fun p => JObject [("_id", JNull); (acc_name, JNumber (inject_Z 1))]) ps)
  else inl (Js.mkError "MongoServerError" (Some 15952%Z) "unknown group operator").

Definition elixir : PotionFields :=
  mkPotionFields "Elixir" (inject_Z 10) (inject_Z 80) ["water"]
                 (inject_Z 4) (inject_Z 2) "2024-01-01" ["healing"; "rare"] "v1".

Definition tonic : PotionFields :=
  mkPotionFields "Tonic" (inject_Z 20) (inject_Z 60) ["herbs"]
                 (inject_Z 3) (inject_Z 1) "2024-02-01" ["healing"; "common"] "v2".

Definition venom : PotionFields :=
  mkPotionFields "Venom" (inject_Z 25) (inject_Z 40) ["fang"]
                 (inject_Z 9) (inject_Z 0) "2024-03-01" ["poison"] "v1".

Definition alice : User := mkUser 2 "alice" (hashPassword 2 "hunter22").

(** Two potions that share one category, and one user. *)
Definition world : World :=
  mkWorld [mkPotion 0 elixir; mkPotion 1 tonic] [alice] None 3 [].

(** The same with a third potion priced above the range used below. *)
Definition shop : World :=
  mkWorld [mkPotion 0 elixir; mkPotion 1 tonic; mkPotion 3 venom] [alice] None 4 [].

Definition down : World := set_outage (Some "connection refused") world.

(** An environment that renames the session cookie. *)
Definition env_renamed : Env := mkEnv (Some "s3cret") (Some "sid").

Definition request {B} (q : list (string * Js.value)) (c : list (string * Js.value))
    (b : B) : Request B :=
  mkRequest (Some c) q (fun _ => "v1") b None.

Definition session (token : string) : list (string * Js.value) :=
  [("demo_node+mongo_token", Js.Str token)].

Definition credentials (n pw : string) : Request AuthRoutes.Credentials :=
  request [] [] (AuthRoutes.mkCredentials (Some n) (Some pw)).

End Sample.

(* ================================================================= *)
(** * Properties *)

Import Express.

(** ** Strings and lists *)

Lemma eqb_empty_false (s : string) :
  s <> EmptyString -> (s =? EmptyString)%string = false.
Proof. intro H. now apply String.eqb_neq. Qed.

Lemma not_truthy_cases (v : Js.value) :
  Js.truthy v = false <-> v = Js.Undefined \/ v = Js.Str EmptyString.
Proof.
  split.
  - destruct v as [|s| |]; simpl; intro H; try discriminate; auto.
    right. apply negb_false_iff, String.eqb_eq in H. now subst.
  - intros [-> | ->]; reflexivity.
Qed.

Section MiddlewareProperties.

Variable jwt_verify : string -> option string -> Js.Error + Claims.
Variable env : Env.

Let auth {B} := @Middleware.authMiddleware jwt_verify env B.

Lemma auth_no_token B (req : Request B) :
  let token := get_cookie req Middleware.COOKIE_NAME in
  Js.truthy token = false \/ Js.is_string token = false
  \/ (exists t, token = Js.Str t /\ Js.trim t = EmptyString) ->
  auth req = Rejected (res |> status 401 |> json (JsonError Middleware.msg_missing)).
Proof.
  intros token H. unfold auth, Middleware.authMiddleware. fold token.
  destruct H as [H | [H | (t & Ht & Hb)]].
  - now rewrite H.
  - rewrite H. now rewrite orb_true_r.
  - rewrite Ht. simpl. rewrite Hb. simpl. now rewrite orb_true_r.
Qed.

Lemma auth_verifies B (req : Request B) (t : string) :
  get_cookie req Middleware.COOKIE_NAME = Js.Str t ->
  Js.trim t <> EmptyString ->
  auth req =
  match jwt_verify t (Middleware.JWT_SECRET env) with
  | inr claims => Next (set_user claims req)
  | inl err =>
      if (Js.err_name err =? "TokenExpiredError")%string
      then Rejected (res |> status 401 |> json (JsonError Middleware.msg_expired))
      else if (Js.err_name err =? "JsonWebTokenError")%string
      then Rejected (res |> status 401 |> json (JsonError Middleware.msg_invalid))
      else Rejected (res |> status 500 |> json (JsonError Middleware.msg_failure))
  end.
Proof.
  intros Ht Hb. unfold auth, Middleware.authMiddleware. rewrite Ht. simpl.
  assert (Hne : t <> EmptyString) by (intros ->; now apply Hb).
  rewrite (eqb_empty_false Hne), (eqb_empty_false Hb). reflexivity.
Qed.

(** C1. The auth middleware has exactly these outcomes.  A cookie that is
    absent, empty or not a string is answered 401 with the missing-token
    message; a token whose verification throws TokenExpiredError is
    answered 401 with the expiry message, which differs from the
    invalid-token message; JsonWebTokenError is answered 401 with the
    invalid-token message; any other verification error is answered 500;
    and [next()] is reached, with the decoded claims on the request,
    exactly when verification succeeds. *)
Theorem authMiddleware_outcomes B (req : Request B) :
  let token := get_cookie req Middleware.COOKIE_NAME in
  let verify := fun t => jwt_verify t (Middleware.JWT_SECRET env) in
  let reject := fun code msg => Rejected (B := B) (res |> status code |> json (JsonError msg)) in
  (token = Js.Undefined \/ token = Js.Str EmptyString \/ Js.is_string token = false ->
   auth req = reject 401 Middleware.msg_missing)
  /\ (forall t err, token = Js.Str t -> Js.trim t <> EmptyString -> verify t = inl err ->
        (Js.err_name err = "TokenExpiredError" ->
           auth req = reject 401 Middleware.msg_expired)
        /\ (Js.err_name err = "JsonWebTokenError" ->
           auth req = reject 401 Middleware.msg_invalid)
        /\ (Js.err_name err <> "TokenExpiredError" ->
            Js.err_name err <> "JsonWebTokenError" ->
           auth req = reject 500 Middleware.msg_failure))
  /\ (forall t claims, token = Js.Str t -> Js.trim t <> EmptyString ->
        verify t = inr claims -> auth req = Next (set_user claims req))
  /\ (forall req', auth req = Next req' ->
        exists t claims, token = Js.Str t /\ verify t = inr claims
                         /\ req' = set_user claims req /\ user req' = Some claims)
  /\ Middleware.msg_expired <> Middleware.msg_invalid
  /\ Middleware.msg_missing <> Middleware.msg_invalid.
Proof.
  intros token verify reject. subst token verify reject. cbn beta.
  set (token := get_cookie req Middleware.COOKIE_NAME).
  assert (Hcase : forall t err, token = Js.Str t -> Js.trim t <> EmptyString ->
            jwt_verify t (Middleware.JWT_SECRET env) = inl err ->
            auth req =
            if (Js.err_name err =? "TokenExpiredError")%string
            then Rejected (res |> status 401 |> json (JsonError Middleware.msg_expired))
            else if (Js.err_name err =? "JsonWebTokenError")%string
            then Rejected (res |> status 401 |> json (JsonError Middleware.msg_invalid))
            else Rejected (res |> status 500 |> json (JsonError Middleware.msg_failure))).
  { intros t err Ht Hb Hv. rewrite (auth_verifies req Ht Hb). now rewrite Hv. }
  split; [|split; [|split; [|split; [|split]]]].
  - intros H. apply auth_no_token. fold token.
    destruct H as [-> | [-> | H]]; auto.
  - intros t err Ht Hb Hv. rewrite (Hcase t err Ht Hb Hv). repeat split.
    + intros ->. reflexivity.
    + intros ->. reflexivity.
    + intros Hn1 Hn2. apply String.eqb_neq in Hn1, Hn2. now rewrite Hn1, Hn2.
  - intros t claims Ht Hb Hv. rewrite (auth_verifies req Ht Hb). now rewrite Hv.
  - intros req' Hnext.
    destruct (Js.truthy token) eqn:Htr.
    2:{ rewrite auth_no_token in Hnext by (fold token; auto). discriminate. }
    destruct (Js.is_string token) eqn:Hstr.
    2:{ rewrite auth_no_token in Hnext by (fold token; auto). discriminate. }
    destruct token as [|t| |] eqn:Htok; try discriminate.
    destruct (string_dec (Js.trim t) EmptyString) as [Hb | Hb].
    { rewrite auth_no_token in Hnext; [discriminate|].
      right; right. exists t. split; [exact Htok | exact Hb]. }
    rewrite (auth_verifies req Htok Hb) in Hnext.
    destruct (jwt_verify t (Middleware.JWT_SECRET env)) as [err | claims] eqn:Hv.
    + destruct (Js.err_name err =? "TokenExpiredError")%string; [discriminate|].
      destruct (Js.err_name err =? "JsonWebTokenError")%string; discriminate.
    + exists t, claims. inversion Hnext. subst. auto.
  - discriminate.
  - discriminate.
Qed.

End MiddlewareProperties.

(** ** Registration and login *)

Lemma notEmpty_false (s : string) :
  Validator.notEmpty s = false <-> String.length s = 0.
Proof.
  unfold Validator.notEmpty. rewrite negb_false_iff. apply Nat.eqb_eq.
Qed.

Lemma isLength_range_false (lo hi : nat) (s : string) :
  Validator.isLength lo (Some hi) s = false <->
  String.length s < lo \/ hi < String.length s.
Proof.
  unfold Validator.isLength. rewrite andb_false_iff, !Nat.leb_gt. reflexivity.
Qed.

Lemma isLength_min_false (lo : nat) (s : string) :
  Validator.isLength lo None s = false <-> String.length s < lo.
Proof.
  unfold Validator.isLength. rewrite andb_true_r. apply Nat.leb_gt.
Qed.

Lemma In_check (ok : bool) (path msg v : string) (e : Validator.FieldError) :
  In e (Validator.check ok path msg v) <->
  ok = false /\ e = Validator.mkFieldError path msg v.
Proof.
  unfold Validator.check. destruct ok; simpl; intuition congruence.
Qed.

Lemma isEmpty_nil {A} (l : list A) : AuthRoutes.isEmpty l = true <-> l = [].
Proof. destruct l; simpl; split; congruence. Qed.

(** The four rules of /register, each reported exactly when it is broken. *)
Lemma validationResult_spec (b : AuthRoutes.Credentials) :
  let n := AuthRoutes.sanitized_name b in
  let pw := AuthRoutes.sanitized_password b in
  let errors := AuthRoutes.validationResult b in
  (In (Validator.mkFieldError "name" AuthRoutes.msg_name_required n) errors
     <-> String.length n = 0)
  /\ (In (Validator.mkFieldError "name" AuthRoutes.msg_name_length n) errors
     <-> String.length n < 3 \/ 30 < String.length n)
  /\ (In (Validator.mkFieldError "password" AuthRoutes.msg_password_required pw) errors
     <-> String.length pw = 0)
  /\ (In (Validator.mkFieldError "password" AuthRoutes.msg_password_length pw) errors
     <-> String.length pw < 6).
Proof.
  intros n pw errors. subst errors. unfold AuthRoutes.validationResult.
  fold n. fold pw.
  rewrite <- notEmpty_false, <- isLength_range_false, <- notEmpty_false,
          <- isLength_min_false.
  unfold AuthRoutes.msg_name_required, AuthRoutes.msg_name_length,
         AuthRoutes.msg_password_required, AuthRoutes.msg_password_length.
  repeat split; rewrite ?in_app_iff, ?In_check;
    intuition (try discriminate; try congruence).
Qed.

Lemma validationResult_nil (b : AuthRoutes.Credentials) :
  AuthRoutes.validationResult b = [] <->
  (3 <= String.length (AuthRoutes.sanitized_name b) <= 30
   /\ 6 <= String.length (AuthRoutes.sanitized_password b)).
Proof.
  unfold AuthRoutes.validationResult, Validator.check, Validator.notEmpty,
         Validator.isLength.
  set (n := String.length (AuthRoutes.sanitized_name b)).
  set (m := String.length (AuthRoutes.sanitized_password b)).
  destruct (Nat.eqb_spec n 0), (Nat.leb_spec 3 n), (Nat.leb_spec n 30),
           (Nat.eqb_spec m 0), (Nat.leb_spec 6 m); simpl;
    split; intros Hres; try discriminate; try lia; reflexivity.
Qed.

Lemma first_named_none_count (n : string) (us : list User) :
  Db.first_named (Some n) us = None <-> count_named n us = 0.
Proof.
  unfold count_named. simpl. induction us as [|u us IH]; simpl.
  - tauto.
  - destruct (user_name u =? n)%string; simpl.
    + split; intro H; discriminate.
    + exact IH.
Qed.

Lemma count_named_app (n : string) (us vs : list User) :
  count_named n (us ++ vs) = count_named n us + count_named n vs.
Proof.
  unfold count_named. now rewrite filter_app, length_app.
Qed.

Lemma first_named_app_new (n : string) (us : list User) (u : User) :
  Db.first_named (Some n) us = None -> user_name u = n ->
  Db.first_named (Some n) (us ++ [u]) = Some u.
Proof.
  simpl. intros Hnone Hname. induction us as [|v us IH]; simpl in *.
  - rewrite Hname, String.eqb_refl. reflexivity.
  - destruct (user_name v =? n)%string; [discriminate | auto].
Qed.

Lemma first_named_In (n : string) (us : list User) (u : User) :
  Db.first_named (Some n) us = Some u -> In u us /\ user_name u = n.
Proof.
  simpl. intro H. apply find_some in H. destruct H as [Hin Heq].
  split; [exact Hin | now apply String.eqb_eq].
Qed.

(** With unique names, the document found by name is the registered one. *)
Lemma first_named_unique (us : list User) (u : User) :
  NoDup (map user_name us) -> In u us ->
  Db.first_named (Some (user_name u)) us = Some u.
Proof.
  simpl. induction us as [|v us IH]; simpl; intros Hnd Hin; [contradiction|].
  inversion Hnd as [|x l Hnotin Hnd']; subst.
  destruct Hin as [-> | Hin].
  - now rewrite String.eqb_refl.
  - destruct (String.eqb_spec (user_name v) (user_name u)) as [Heq | Hneq].
    + exfalso. apply Hnotin. rewrite Heq. now apply in_map.
    + auto.
Qed.

Section AuthProperties.

Variable env : Env.
Variable jwt_sign : Payload -> string -> string -> string.
Variable hashPassword : nat -> string -> string.
Variable comparePassword : User -> option string -> bool.
Variable bodyString : option string -> option string.

Let post_register := AuthRoutes.post_register hashPassword.
Let post_login := AuthRoutes.post_login env jwt_sign comparePassword bodyString.

Lemma post_register_invalid (req : Request AuthRoutes.Credentials) (w : World) :
  AuthRoutes.validationResult (body req) <> [] ->
  post_register req w =
  (Sent (res |> status 400 |> json (JsonErrors (AuthRoutes.validationResult (body req)))), w).
Proof.
  intro H. unfold post_register, AuthRoutes.post_register.
  destruct (AuthRoutes.validationResult (body req)); [contradiction | reflexivity].
Qed.

(** What /register does with a body that passes validation, by the three
    states the store can be in. *)
Lemma post_register_valid (req : Request AuthRoutes.Credentials) (w : World) :
  AuthRoutes.validationResult (body req) = [] ->
  let n := AuthRoutes.sanitized_name (body req) in
  let pw := AuthRoutes.sanitized_password (body req) in
  post_register req w =
  match outage w with
  | Some msg =>
      (Sent (res |> status 400 |> json (JsonError msg)), log (UserSave n pw) w)
  | None =>
      match Db.first_named (Some n) (users w) with
      | Some _ =>
          (Sent (res |> status 500 |> json (JsonError "Erreur système")),
           log (UserSave n pw) w)
      | None =>
          (Sent (res |> status 201 |> json (JsonMessage "Utilisateur créé")),
           mkWorld (potions w)
                   (users w ++ [mkUser (fresh w) n (hashPassword (fresh w) pw)])
                   (outage w) (S (fresh w)) (issued w ++ [UserSave n pw]))
      end
  end.
Proof.
  intros Hv n pw. unfold post_register, AuthRoutes.post_register.
  rewrite Hv. cbn [AuthRoutes.isEmpty negb]. fold n. fold pw.
  unfold try_await, Db.save_user.
  destruct (outage w) as [msg|]; [reflexivity|].
  destruct (Db.first_named (Some n) (users w)); reflexivity.
Qed.

(** C2. A registration whose name, trimmed and escaped, is shorter than 3
    or longer than 30 characters, or whose trimmed password is shorter
    than 6, is answered 400; the body of the answer lists every rule that
    is broken and only those, all in the one response; the world is left
    as it was: no document is stored and no call reaches the store. *)
Theorem register_reports_all_violations
    (req : Request AuthRoutes.Credentials) (w : World) :
  let n := AuthRoutes.sanitized_name (body req) in
  let pw := AuthRoutes.sanitized_password (body req) in
  String.length n < 3 \/ 30 < String.length n \/ String.length pw < 6 ->
  exists errors,
    post_register req w = (Sent (mkResponse 400 (Some (JsonErrors errors)) [] []), w)
    /\ (In (Validator.mkFieldError "name" AuthRoutes.msg_name_required n) errors
        <-> String.length n = 0)
    /\ (In (Validator.mkFieldError "name" AuthRoutes.msg_name_length n) errors
        <-> String.length n < 3 \/ 30 < String.length n)
    /\ (In (Validator.mkFieldError "password" AuthRoutes.msg_password_required pw) errors
        <-> String.length pw = 0)
    /\ (In (Validator.mkFieldError "password" AuthRoutes.msg_password_length pw) errors
        <-> String.length pw < 6).
Proof.
  intros n pw Hbad.
  exists (AuthRoutes.validationResult (body req)). split.
  - apply post_register_invalid. intro Hnil.
    apply validationResult_nil in Hnil. fold n in Hnil. fold pw in Hnil. lia.
  - apply validationResult_spec.
Qed.

(** C3. Once a name is registered (a first registration answered 201), a
    second registration under that name is answered outside the 2xx class
    whatever else it carries and whatever the state of the store, the
    collections are left as they were, and exactly one user document has
    that name; when the second body is valid and the store is reachable the
    answer is the generic 500 [{ error: 'Erreur système' }], which names no
    field. *)
Theorem register_same_name_twice
    (r1 r2 : Request AuthRoutes.Credentials) (w0 w1 : World) (resp1 : Response)
    (o : option string) :
  post_register r1 w0 = (Sent resp1, w1) ->
  res_status resp1 = 201 ->
  AuthRoutes.sanitized_name (body r2) = AuthRoutes.sanitized_name (body r1) ->
  exists resp2 w2,
    post_register r2 (set_outage o w1) = (Sent resp2, w2)
    /\ is_2xx (res_status resp2) = false
    /\ collections w2 = collections w1
    /\ count_named (AuthRoutes.sanitized_name (body r1)) (users w2) = 1
    /\ (o = None -> AuthRoutes.validationResult (body r2) = [] ->
        resp2 = mkResponse 500 (Some (JsonError "Erreur système")) [] []).
Proof.
  intros H1 Hcreated Hname.
  set (n := AuthRoutes.sanitized_name (body r1)) in *.
  (* the first registration stored exactly one document named [n] *)
  assert (Hfirst : Db.first_named (Some n) (users w0) = None
                   /\ exists u, user_name u = n /\ users w1 = (users w0 ++ [u])%list).
  { destruct (list_eq_dec
                (fun a b : Validator.FieldError =>
                   ltac:(decide equality; apply string_dec) : {a = b} + {a <> b})
                (AuthRoutes.validationResult (body r1)) []) as [Hv | Hv].
    - rewrite (post_register_valid r1 w0 Hv) in H1. fold n in H1.
      destruct (outage w0); [inversion H1; subst; discriminate|].
      destruct (Db.first_named (Some n) (users w0)); inversion H1; subst.
      + discriminate.
      + split; [reflexivity|]. eexists. split; [|reflexivity]. reflexivity.
    - rewrite (post_register_invalid r1 w0 Hv) in H1. inversion H1; subst.
      discriminate. }
  destruct Hfirst as [Hnone (u & Hu & Husers)].
  assert (Hcount : count_named n (users w1) = 1).
  { rewrite Husers, count_named_app.
    apply first_named_none_count in Hnone. rewrite Hnone.
    unfold count_named. simpl. rewrite Hu, String.eqb_refl. reflexivity. }
  assert (Hdup : exists v, Db.first_named (Some n) (users w1) = Some v).
  { exists u. rewrite Husers. now apply first_named_app_new. }
  destruct Hdup as [v Hv1].
  destruct (list_eq_dec
              (fun a b : Validator.FieldError =>
                 ltac:(decide equality; apply string_dec) : {a = b} + {a <> b})
              (AuthRoutes.validationResult (body r2)) []) as [Hv | Hv].
  - rewrite (post_register_valid r2 (set_outage o w1) Hv). rewrite Hname. fold n.
    destruct o as [msg|]; unfold set_outage; cbn [outage users].
    + do 2 eexists. split; [reflexivity|]. repeat split; auto. discriminate.
    + rewrite Hv1. do 2 eexists. split; [reflexivity|]. repeat split; auto.
  - rewrite (post_register_invalid r2 (set_outage o w1) Hv).
    do 2 eexists. split; [reflexivity|]. repeat split; auto.
    intros _ Hnil. contradiction.
Qed.

(** /login when the store answers: one lookup by name, then the password
    comparison. *)
Lemma post_login_reachable (req : Request AuthRoutes.Credentials) (w : World) :
  outage w = None ->
  let name := bodyString (AuthRoutes.cred_name (body req)) in
  let password := bodyString (AuthRoutes.cred_password (body req)) in
  post_login req w =
  match Db.first_named name (users w) with
  | None => (Sent invalid_credentials, log (UserFindOne name) w)
  | Some u =>
      if comparePassword u password
      then (Sent (mkResponse 200 (Some (JsonMessage "Connecté avec succès"))
                    [mkCookie (AuthRoutes.COOKIE_NAME env)
                       (jwt_sign (mkPayload (user_id u) (user_name u))
                                 (AuthRoutes.JWT_SECRET env) "1d")
                       AuthRoutes.session_cookie] []),
            log (UserFindOne name) w)
      else (Sent invalid_credentials, log (UserFindOne name) w)
  end.
Proof.
  intros Hup name password.
  unfold post_login, AuthRoutes.post_login, Db.findOne, read.
  fold name. fold password. rewrite Hup.
  destruct (Db.first_named name (users w)) as [u|]; [|reflexivity].
  destruct (comparePassword u password); reflexivity.
Qed.

(** C4. With the store reachable and names unique in it: for a registered
    user, a login under that name with a password that compares equal to
    the stored hash is answered 200 and sets exactly one cookie, named
    [COOKIE_NAME], whose value is the token signed for [{ id, name }] of
    that user with a one-day expiry, so that the subject name decoded from
    it is the registered name; the cookie is HTTP-only, same-site strict,
    with a lifetime of 24 hours in milliseconds.  A login with a password
    that does not compare equal, or under a name no user has, is answered
    401 and sets no cookie. *)
Theorem login_sets_session_cookie
    (jwt_decode_name : string -> option string)
    (req : Request AuthRoutes.Credentials) (w : World) :
  (forall p secret ttl, jwt_decode_name (jwt_sign p secret ttl) = Some (sub_name p)) ->
  outage w = None ->
  NoDup (map user_name (users w)) ->
  let name := bodyString (AuthRoutes.cred_name (body req)) in
  let password := bodyString (AuthRoutes.cred_password (body req)) in
  (forall u, In u (users w) -> name = Some (user_name u) ->
     comparePassword u password = true ->
     exists token w',
       post_login req w =
         (Sent (mkResponse 200 (Some (JsonMessage "Connecté avec succès"))
                  [mkCookie (AuthRoutes.COOKIE_NAME env) token
                            AuthRoutes.session_cookie] []),
          w')
       /\ token = jwt_sign (mkPayload (user_id u) (user_name u))
                           (AuthRoutes.JWT_SECRET env) "1d"
       /\ jwt_decode_name token = Some (user_name u)
       /\ httpOnly AuthRoutes.session_cookie = true
       /\ sameSite AuthRoutes.session_cookie = "strict"
       /\ maxAge AuthRoutes.session_cookie = (24 * 3600 * 1000)%Z
       /\ collections w' = collections w)
  /\ (forall u, In u (users w) -> name = Some (user_name u) ->
      comparePassword u password = false ->
      exists w', post_login req w = (Sent invalid_credentials, w')
                 /\ res_status invalid_credentials = 401
                 /\ res_cookies invalid_credentials = []
                 /\ collections w' = collections w)
  /\ ((forall u, In u (users w) -> name <> Some (user_name u)) ->
      exists w', post_login req w = (Sent invalid_credentials, w')
                 /\ res_status invalid_credentials = 401
                 /\ res_cookies invalid_credentials = []
                 /\ collections w' = collections w).
Proof.
  intros Hjwt Hup Hnd name password.
  pose proof (post_login_reachable req w Hup) as Hlogin.
  cbv zeta in Hlogin. fold name in Hlogin. fold password in Hlogin.
  split; [|split].
  - intros u Hin Hname Hpw. rewrite Hlogin, Hname.
    rewrite (first_named_unique _ _ Hnd Hin), Hpw.
    do 2 eexists. split; [reflexivity|]. repeat split. apply Hjwt.
  - intros u Hin Hname Hpw. rewrite Hlogin, Hname.
    rewrite (first_named_unique _ _ Hnd Hin), Hpw.
    eexists. split; [reflexivity|]. repeat split.
  - intros Hunknown. rewrite Hlogin.
    destruct name as [n|] eqn:Hn.
    + destruct (Db.first_named (Some n) (users w)) as [v|] eqn:Hfind.
      * apply first_named_In in Hfind. destruct Hfind as [Hin Hv].
        exfalso. apply (Hunknown v Hin). now rewrite Hv.
      * eexists. split; [reflexivity|]. repeat split.
    + eexists. split; [reflexivity|]. repeat split.
Qed.

End AuthProperties.

(** ** The query surface *)

Lemma try_await_snd {A} (m : Store A) ok handle (w : World) :
  snd (try_await m ok handle w) = snd (m w).
Proof. unfold try_await. destruct (m w) as [[e | a] w']; reflexivity. Qed.

Lemma try_await_sent {A} (m : Store A) ok handle (w : World) :
  exists r, fst (try_await m ok handle w) = Sent r.
Proof. unfold try_await. destruct (m w) as [[e | a] w']; eexists; reflexivity. Qed.

(** A read leaves both collections, and all but the log, as they were. *)
Lemma read_frame {A} (c : StoreCall) (answer : list Potion -> list User -> Js.Error + A)
    (w : World) :
  let w' := snd (read c answer w) in
  collections w' = collections w /\ outage w' = outage w /\ fresh w' = fresh w.
Proof. unfold read. destruct (outage w) eqn:Ho; simpl; repeat split; auto. Qed.

Lemma find_frame (f : Filter) (w : World) :
  collections (snd (Db.find f w)) = collections w.
Proof.
  unfold Db.find. destruct (Db.cast_filter f); [reflexivity|].
  apply (read_frame (PotionFind f)).
Qed.

Lemma matches_within (lo hi : Js.number) (p : Potion) :
  Db.potion_matches (FindPrice lo hi) p = true <-> within lo hi (price (fields p)).
Proof.
  unfold Db.potion_matches, within. rewrite andb_true_iff.
  destruct lo, hi; simpl; rewrite ?Qle_bool_iff; intuition discriminate.
Qed.

Lemma In_distinct_values (x : string) (l : list string) :
  In x (Db.distinct_values l) <-> In x l.
Proof.
  induction l as [|y l IH]; simpl; [tauto|].
  rewrite filter_In, IH, negb_true_iff, String.eqb_neq.
  destruct (string_dec x y) as [-> | Hne]; intuition congruence.
Qed.

Lemma NoDup_distinct_values (l : list string) : NoDup (Db.distinct_values l).
Proof.
  induction l as [|y l IH]; simpl; constructor.
  - rewrite filter_In, negb_true_iff, String.eqb_neq. tauto.
  - now apply NoDup_filter.
Qed.

Lemma group_avg_keys (rows : list (string * Q)) :
  map fst (Db.group_avg rows) = Db.distinct_values (map fst rows).
Proof.
  unfold Db.group_avg. rewrite map_map. simpl. apply map_id.
Qed.

Lemma In_group_avg (rows : list (string * Q)) (k : string) (a : Q) :
  In (k, a) (Db.group_avg rows) ->
  In k (map fst rows) /\ a = Db.average (Db.values_of k rows).
Proof.
  unfold Db.group_avg. rewrite in_map_iff. intros (k' & Heq & Hin).
  inversion Heq; subst. split; [|reflexivity]. now apply In_distinct_values.
Qed.

Lemma In_unwind_keys (c : string) (ps : list Potion) :
  In c (map fst (Db.unwind_categories ps)) <->
  exists p, In p ps /\ In c (categories (fields p)).
Proof.
  unfold Db.unwind_categories. rewrite in_map_iff. split.
  - intros ([c' q] & Hc & Hin). simpl in Hc. subst c'.
    apply in_flat_map in Hin. destruct Hin as (p & Hp & Hin).
    apply in_map_iff in Hin. destruct Hin as (c' & Heq & Hin').
    inversion Heq; subst. eauto.
  - intros (p & Hp & Hin). exists (c, score (fields p)). split; [reflexivity|].
    apply in_flat_map. exists p. split; [exact Hp|].
    apply in_map_iff. eauto.
Qed.

(** The scores averaged in the group of a category: each potion gives its
    score once per listing of the category. *)
Lemma values_of_unwind (c : string) (ps : list Potion) :
  Db.values_of c (Db.unwind_categories ps) =
  flat_map (fun p => map (fun _ => score (fields p))
                         (filter (fun c' => (c' =? c)%string) (categories (fields p)))) ps.
Proof.
  unfold Db.values_of, Db.unwind_categories.
  induction ps as [|p ps IH]; simpl; [reflexivity|].
  rewrite filter_app, map_app, IH. f_equal.
  induction (categories (fields p)) as [|c' cs IHc]; simpl; [reflexivity|].
  destruct (c' =? c)%string; simpl; now rewrite IHc.
Qed.

Lemma average_one (x : Q) : Qeq (Db.average [x]) x.
Proof. unfold Db.average, Db.sum. simpl. field. Qed.

Lemma average_two (x y : Q) :
  Qeq (Db.average [x; y]) (Qdiv (Qplus x y) (inject_Z 2)).
Proof. unfold Db.average, Db.sum. simpl. field. Qed.

Section RouterProperties.

Variable mongo_group :
  string -> string -> string -> string -> list Potion -> Js.Error + list Json.
Variable jwt_verify : string -> option string -> Js.Error + Claims.
Variable env : Env.
Variable hashPassword : nat -> string -> string.

Let get {B} := @Router.get mongo_group B.

(** C5. When [min] and [max] both parse to numbers and the store answers,
    /price-range is answered 200 with exactly the documents whose price
    lies in the closed interval between them, in the order of the
    collection: a document is returned if and only if it is stored and its
    price is within the bounds, so a price equal to either bound is
    returned and no price outside is. *)
Theorem price_range_closed_interval B (req : Request B) (w : World) :
  let lo := Js.parseFloat (get_query req "min") in
  let hi := Js.parseFloat (get_query req "max") in
  Js.isNaN lo = false -> Js.isNaN hi = false -> outage w = None ->
  exists found w',
    Router.get_price_range req w =
      (Sent (mkResponse 200 (Some (JsonPotions found)) [] []), w')
    /\ found = filter (Db.potion_matches (FindPrice lo hi)) (potions w)
    /\ (forall p, In p found <-> In p (potions w) /\ within lo hi (price (fields p)))
    /\ (forall p a b, In p (potions w) -> lo = Js.Finite a -> hi = Js.Finite b ->
          Qle a b ->
          Qeq (price (fields p)) a \/ Qeq (price (fields p)) b -> In p found)
    /\ (forall p a b, In p found -> lo = Js.Finite a -> hi = Js.Finite b ->
          ~ Qlt (price (fields p)) a /\ ~ Qlt b (price (fields p))).
Proof.
  intros lo hi Hlo Hhi Hup.
  assert (Hin : forall p, In p (filter (Db.potion_matches (FindPrice lo hi)) (potions w))
                          <-> In p (potions w) /\ within lo hi (price (fields p))).
  { intro p. now rewrite filter_In, matches_within. }
  do 2 eexists. split; [|split; [reflexivity|split; [exact Hin|split]]].
  - unfold Router.get_price_range, try_await, Db.find, Db.cast_filter, read.
    fold lo. fold hi. rewrite Hlo, Hhi, Hup. reflexivity.
  - intros p a b Hp Ha Hb Hab Hprice. apply Hin. split; [exact Hp|].
    rewrite Ha, Hb. unfold within.
    destruct Hprice as [Heq | Heq]; rewrite Heq; split;
      auto using Qle_refl.
  - intros p a b Hp Ha Hb. apply Hin in Hp. destruct Hp as [_ Hw].
    rewrite Ha, Hb in Hw. destruct Hw as [H1 H2].
    split; apply Qle_not_lt; assumption.
Qed.

(** C6. When [min] or [max] is absent, or does not parse to a number, the
    query is refused with a cast error and /price-range is answered 500
    with that error; it is not answered 400. *)
Theorem price_range_unparseable_is_500 B (req : Request B) (w : World) :
  let min := get_query req "min" in
  let max := get_query req "max" in
  min = Js.Undefined \/ max = Js.Undefined
  \/ Js.parseFloat min = Js.NaN \/ Js.parseFloat max = Js.NaN ->
  exists err w',
    Router.get_price_range req w =
      (Sent (mkResponse 500 (Some (JsonError (Js.err_message err))) [] []), w')
    /\ Db.cast_filter (FindPrice (Js.parseFloat min) (Js.parseFloat max)) = Some err
    /\ Js.err_name err = "CastError"
    /\ res_status_of (fst (Router.get_price_range req w)) <> Some 400
    /\ collections w' = collections w.
Proof.
  intros min max H.
  assert (Hnan : Js.isNaN (Js.parseFloat min) || Js.isNaN (Js.parseFloat max) = true).
  { assert (Hu : Js.parseFloat Js.Undefined = Js.NaN) by reflexivity.
    destruct H as [H | [H | [H | H]]]; rewrite H, ?Hu; simpl;
      solve [reflexivity | apply orb_true_r]. }
  exists (Db.cast_error "price"), w.
  unfold Router.get_price_range, try_await, Db.find, Db.cast_filter.
  fold min. fold max. rewrite Hnan. repeat split. discriminate.
Qed.

(** C8. When one of [groupBy], [metric], [field] is missing or empty,
    /analytics/search is answered 400 with the error body and the world is
    left as it was: in particular no call is issued to the store. *)
Theorem search_missing_parameter_is_400 B (req : Request B) (w : World) :
  (exists k, (k = "groupBy" \/ k = "metric" \/ k = "field")
             /\ (get_query req k = Js.Undefined \/ get_query req k = Js.Str EmptyString)) ->
  Router.get_search mongo_group req w =
    (Sent (mkResponse 400 (Some (JsonError Router.msg_missing_parameters)) [] []), w)
  /\ issued (snd (Router.get_search mongo_group req w)) = issued w.
Proof.
  intros (k & Hk & Hv). apply not_truthy_cases in Hv.
  assert (Hguard : negb (Js.truthy (get_query req "groupBy"))
                   || negb (Js.truthy (get_query req "metric"))
                   || negb (Js.truthy (get_query req "field")) = true).
  { destruct Hk as [-> | [-> | ->]]; rewrite Hv; cbn [negb];
      rewrite ?orb_true_r, ?orb_true_l; reflexivity. }
  unfold Router.get_search. rewrite Hguard. split; reflexivity.
Qed.

(** C10. Every GET handler of the router answers, and leaves the potion
    collection and the user collection as they were, whether the query
    succeeds or fails. *)
Theorem get_handlers_preserve_collections B (route : Router.GetRoute)
    (req : Request B) (w : World) :
  let (outcome, w') := get route req w in
  potions w' = potions w /\ users w' = users w
  /\ exists r, outcome = Sent r.
Proof.
  assert (Hframe : forall (h : Handler),
            (collections (snd (h w)) = collections w /\ exists r, fst (h w) = Sent r) ->
            let (outcome, w') := h w in
            potions w' = potions w /\ users w' = users w /\ exists r, outcome = Sent r).
  { intros h [Hc Hs]. destruct (h w) as [outcome w']. simpl in *.
    inversion Hc. auto. }
  assert (Hread : forall A (m : Store A) ok handle,
            collections (snd (m w)) = collections w ->
            collections (snd (try_await m ok handle w)) = collections w
            /\ exists r, fst (try_await m ok handle w) = Sent r).
  { intros A m ok handle Hm. split; [|apply try_await_sent].
    now rewrite try_await_snd. }
  assert (Hagg : forall p,
            collections (snd (Db.aggregate mongo_group p w)) = collections w).
  { intro p. apply (read_frame (PotionAggregate p)). }
  apply Hframe.
  destruct route; unfold get, Router.get, Router.get_potions, Router.get_names,
    Router.get_vendor, Router.get_price_range, Router.get_distinct_categories,
    Router.get_average_score_by_vendor, Router.get_average_score_by_category,
    Router.get_strength_flavor_ratio, Router.get_search.
  1-4: apply Hread, find_frame.
  - apply Hread, (read_frame (PotionDistinct "categories")).
  - apply Hread, Hagg.
  - apply Hread, Hagg.
  - apply Hread, Hagg.
  - destruct (negb _ || negb _ || negb _).
    + split; [reflexivity | eexists; reflexivity].
    + apply Hread, Hagg.
Qed.

(** C7. When the store answers, /analytics/average-score-by-category is
    answered 200 with one group per category value that some potion lists,
    no category twice; the average of a group is taken over the scores of
    the potions listing that category, so a potion contributes to the
    group of every category it lists.  On two documents that share one
    category and differ in a second, the shared category averages both
    scores and each unshared category forms its own group. *)
Theorem average_score_by_category_fans_out B (req : Request B) (w : World) :
  outage w = None ->
  exists groups w',
    Router.get_average_score_by_category mongo_group req w =
      (Sent (mkResponse 200 (Some (JsonRows (Averages groups))) [] []), w')
    /\ collections w' = collections w
    /\ NoDup (map fst groups)
    /\ (forall c, In c (map fst groups) <->
                  exists p, In p (potions w) /\ In c (categories (fields p)))
    /\ (forall c a, In (c, a) groups ->
          a = Db.average
                (flat_map (fun p => map (fun _ => score (fields p))
                                        (filter (fun c' => (c' =? c)%string)
                                                (categories (fields p))))
                          (potions w)))
    /\ (forall p1 p2 shared c1 c2,
          potions w = [p1; p2] ->
          categories (fields p1) = [shared; c1] ->
          categories (fields p2) = [shared; c2] ->
          shared <> c1 -> shared <> c2 -> c1 <> c2 ->
          groups = [(shared, Db.average [score (fields p1); score (fields p2)]);
                    (c1, Db.average [score (fields p1)]);
                    (c2, Db.average [score (fields p2)])]
          /\ Qeq (Db.average [score (fields p1); score (fields p2)])
                 (Qdiv (Qplus (score (fields p1)) (score (fields p2))) (inject_Z 2))
          /\ Qeq (Db.average [score (fields p1)]) (score (fields p1))
          /\ Qeq (Db.average [score (fields p2)]) (score (fields p2))).
Proof.
  intro Hup.
  exists (Db.group_avg (Db.unwind_categories (potions w))).
  eexists. split; [|split; [|split; [|split; [|split]]]].
  - unfold Router.get_average_score_by_category, try_await, Db.aggregate, read.
    rewrite Hup. reflexivity.
  - reflexivity.
  - rewrite group_avg_keys. apply NoDup_distinct_values.
  - intro c. rewrite group_avg_keys, In_distinct_values. apply In_unwind_keys.
  - intros c a Hin. apply In_group_avg in Hin. destruct Hin as [_ ->].
    now rewrite values_of_unwind.
  - intros p1 p2 shared c1 c2 Hpot Hc1 Hc2 H1 H2 H12.
    split; [|split; [apply average_two | split; apply average_one]].
    assert (E1 : (c1 =? shared)%string = false) by (apply String.eqb_neq; congruence).
    assert (E2 : (c2 =? shared)%string = false) by (apply String.eqb_neq; congruence).
    assert (E3 : (c2 =? c1)%string = false) by (apply String.eqb_neq; congruence).
    assert (E4 : (shared =? c1)%string = false) by (now apply String.eqb_neq).
    assert (E5 : (shared =? c2)%string = false) by (now apply String.eqb_neq).
    assert (E6 : (c1 =? c2)%string = false) by (now apply String.eqb_neq).
    unfold Db.group_avg, Db.unwind_categories, Db.values_of.
    rewrite Hpot. cbn [flat_map]. rewrite Hc1, Hc2.
    cbn [map app fst snd Db.distinct_values].
    repeat (rewrite ?String.eqb_refl, ?E1, ?E2, ?E3, ?E4, ?E5, ?E6;
            cbn [filter negb map fst snd]).
    reflexivity.
Qed.

(** C9. What the code does when the store cannot be reached: the listing
    is answered 500 with the driver's message, but potion creation (behind
    a token that verifies) and registration (with a body that passes
    validation) are answered 400 with that message, and nothing is
    stored. *)
Theorem store_failure_on_write_is_400
    (req : Request PotionFields) (reg : Request AuthRoutes.Credentials)
    (t : string) (claims : Claims) (msg : string) (w : World) :
  outage w = Some msg ->
  get_cookie req Middleware.COOKIE_NAME = Js.Str t ->
  Js.trim t <> EmptyString ->
  jwt_verify t (Middleware.JWT_SECRET env) = inr claims ->
  AuthRoutes.validationResult (body reg) = [] ->
  (exists w', Router.get_potions req w =
                (Sent (mkResponse 500 (Some (JsonError msg)) [] []), w')
              /\ collections w' = collections w)
  /\ (exists w', Router.post_potion jwt_verify env req w =
                   (Sent (mkResponse 400 (Some (JsonError msg)) [] []), w')
                 /\ collections w' = collections w)
  /\ (exists w', AuthRoutes.post_register hashPassword reg w =
                   (Sent (mkResponse 400 (Some (JsonError msg)) [] []), w')
                 /\ collections w' = collections w).
Proof.
  intros Hdown Htok Hblank Hverify Hvalid. split; [|split].
  - eexists. unfold Router.get_potions, try_await, Db.find, read. simpl.
    rewrite Hdown. split; reflexivity.
  - eexists. unfold Router.post_potion.
    rewrite (auth_verifies jwt_verify env req Htok Hblank), Hverify.
    unfold try_await, Db.save_potion. simpl. rewrite Hdown. split; reflexivity.
  - eexists. rewrite (post_register_valid hashPassword reg w Hvalid), Hdown.
    split; reflexivity.
Qed.

End RouterProperties.

(* ================================================================= *)
(** ** The statements on the sample instance *)

Example parseFloat_integer : Js.parseFloat (Js.Str "10") = Js.Finite (inject_Z 10).
Proof. reflexivity. Qed.

Example parseFloat_prefix :
  Js.parseFloat (Js.Str " -2.50e1xyz") = Js.Finite (Qmake (-250) 10).
Proof. reflexivity. Qed.

Example parseFloat_word : Js.parseFloat (Js.Str "cheap") = Js.NaN.
Proof. reflexivity. Qed.

Example trim_both_ends : Js.trim "  ab c  " = "ab c".
Proof. reflexivity. Qed.

Example escape_markup : Validator.escape "<b>" = "&lt;b&gt;".
Proof. reflexivity. Qed.

Example auth_expired_token :
  Middleware.authMiddleware Sample.jwt_verify Sample.env
    (Sample.request [] (Sample.session "old") tt)
  = Rejected (mkResponse 401 (Some (JsonError Middleware.msg_expired)) [] []).
Proof. reflexivity. Qed.

Example auth_not_before_token :
  Middleware.authMiddleware Sample.jwt_verify Sample.env
    (Sample.request [] (Sample.session "early") tt)
  = Rejected (mkResponse 500 (Some (JsonError Middleware.msg_failure)) [] []).
Proof. reflexivity. Qed.

Example auth_blank_token :
  Middleware.authMiddleware Sample.jwt_verify Sample.env
    (Sample.request [] (Sample.session "   ") tt)
  = Rejected (mkResponse 401 (Some (JsonError Middleware.msg_missing)) [] []).
Proof. reflexivity. Qed.

Lemma register_reports_all_violations_witness :
  exists errors,
    fst (AuthRoutes.post_register Sample.hashPassword
           (Sample.credentials " x " "abc") Sample.world)
    = Sent (mkResponse 400 (Some (JsonErrors errors)) [] [])
    /\ List.length errors = 2.
Proof.
  destruct (register_reports_all_violations Sample.hashPassword
              (Sample.credentials " x " "abc") Sample.world) as (errors & Hrun & _).
  - vm_compute. lia.
  - exists errors. split.
    + rewrite Hrun. reflexivity.
    + vm_compute in Hrun. inversion Hrun. reflexivity.
Defined.

Lemma register_same_name_twice_witness :
  exists resp2 w2,
    AuthRoutes.post_register Sample.hashPassword (Sample.credentials "bob" "another1")
      (snd (AuthRoutes.post_register Sample.hashPassword
              (Sample.credentials " bob " "secret1") Sample.world))
    = (Sent resp2, w2)
    /\ res_status resp2 = 500
    /\ count_named "bob" (users w2) = 1.
Proof.
  destruct (@register_same_name_twice Sample.hashPassword
              (Sample.credentials " bob " "secret1")
              (Sample.credentials "bob" "another1")
              Sample.world
              (snd (AuthRoutes.post_register Sample.hashPassword
                      (Sample.credentials " bob " "secret1") Sample.world))
              (mkResponse 201 (Some (JsonMessage "Utilisateur créé")) [] [])
              None)
    as (resp2 & w2 & Hrun & _ & _ & Hcount & Hgeneric).
  - reflexivity.
  - reflexivity.
  - reflexivity.
  - exists resp2, w2. split; [exact Hrun|]. split; [|exact Hcount].
    rewrite Hgeneric; reflexivity.
Defined.

Lemma login_sets_session_cookie_witness :
  exists token w',
    AuthRoutes.post_login Sample.env Sample.jwt_sign Sample.comparePassword
      Sample.bodyString (Sample.credentials "alice" "hunter22") Sample.world
    = (Sent (mkResponse 200 (Some (JsonMessage "Connecté avec succès"))
               [mkCookie "demo_node+mongo_token" token
                         (mkCookieOptions true "strict" false 86400000%Z)] []),
       w')
    /\ Sample.jwt_decode_name token = Some "alice".
Proof.
  destruct (login_sets_session_cookie Sample.env Sample.jwt_sign
              Sample.comparePassword Sample.bodyString Sample.jwt_decode_name
              (Sample.credentials "alice" "hunter22") Sample.world)
    as [Hok _].
  - intros p secret ttl. reflexivity.
  - reflexivity.
  - simpl. repeat constructor; simpl; tauto.
  - destruct (Hok Sample.alice) as (token & w' & Hrun & _ & Hname & _).
    + simpl. auto.
    + reflexivity.
    + reflexivity.
    + exists token, w'. split; [exact Hrun | exact Hname].
Defined.

Lemma price_range_closed_interval_witness :
  exists w',
    Router.get_price_range
      (Sample.request [("min", Js.Str "10"); ("max", Js.Str "20")] [] tt) Sample.shop
    = (Sent (mkResponse 200
               (Some (JsonPotions [mkPotion 0 Sample.elixir; mkPotion 1 Sample.tonic]))
               [] []), w').
Proof.
  destruct (@price_range_closed_interval unit
              (Sample.request [("min", Js.Str "10"); ("max", Js.Str "20")] [] tt)
              Sample.shop)
    as (found & w' & Hrun & Hfound & _).
  - reflexivity.
  - reflexivity.
  - reflexivity.
  - exists w'. rewrite Hrun, Hfound. reflexivity.
Defined.

Lemma price_range_unparseable_is_500_witness :
  exists msg,
    fst (Router.get_price_range
           (Sample.request [("min", Js.Str "cheap"); ("max", Js.Str "20")] [] tt)
           Sample.shop)
    = Sent (mkResponse 500 (Some (JsonError msg)) [] []).
Proof.
  destruct (@price_range_unparseable_is_500 unit
              (Sample.request [("min", Js.Str "cheap"); ("max", Js.Str "20")] [] tt)
              Sample.shop)
    as (err & w' & Hrun & _).
  - right. right. left. reflexivity.
  - exists (Js.err_message err). rewrite Hrun. reflexivity.
Defined.

Lemma average_score_by_category_fans_out_witness :
  exists groups w',
    Router.get_average_score_by_category Sample.mongo_group
      (Sample.request [] [] tt) Sample.world
    = (Sent (mkResponse 200 (Some (JsonRows (Averages groups))) [] []), w')
    /\ map fst groups = ["healing"; "rare"; "common"].
Proof.
  destruct (@average_score_by_category_fans_out Sample.mongo_group unit
              (Sample.request [] [] tt) Sample.world)
    as (groups & w' & Hrun & _ & _ & _ & _ & Htwo).
  - reflexivity.
  - exists groups, w'. split; [exact Hrun|].
    destruct (Htwo (mkPotion 0 Sample.elixir) (mkPotion 1 Sample.tonic)
                   "healing" "rare" "common") as [Hgroups _];
      try reflexivity; try discriminate.
    rewrite Hgroups. reflexivity.
Defined.

Lemma search_missing_parameter_is_400_witness :
  res_status_of
    (fst (Router.get_search Sample.mongo_group
            (Sample.request [("groupBy", Js.Str "vendor_id"); ("metric", Js.Str "avg")]
                            [] tt)
            Sample.world)) = Some 400.
Proof.
  destruct (@search_missing_parameter_is_400 Sample.mongo_group unit
              (Sample.request [("groupBy", Js.Str "vendor_id"); ("metric", Js.Str "avg")]
                              [] tt)
              Sample.world) as [Hrun _].
  - exists "field". split; [auto | left; reflexivity].
  - rewrite Hrun. reflexivity.
Defined.

Lemma store_failure_on_write_is_400_witness :
  res_status_of
    (fst (Router.post_potion Sample.jwt_verify Sample.env
            (Sample.request [] (Sample.session "good") Sample.venom) Sample.down))
  = Some 400
  /\ res_status_of
       (fst (AuthRoutes.post_register Sample.hashPassword
               (Sample.credentials "carol" "secret1") Sample.down))
     = Some 400.
Proof.
  destruct (@store_failure_on_write_is_400 Sample.jwt_verify Sample.env
              Sample.hashPassword
              (Sample.request [] (Sample.session "good") Sample.venom)
              (Sample.credentials "carol" "secret1")
              "good" Sample.alice_claims "connection refused" Sample.down)
    as (_ & (w1 & Hpotion & _) & (w2 & Hregister & _)).
  - reflexivity.
  - reflexivity.
  - discriminate.
  - reflexivity.
  - reflexivity.
  - rewrite Hpotion, Hregister. split; reflexivity.
Defined.

(* ================================================================= *)
(** * Further properties of the handlers *)

(** ** Creation behind the gate *)

Section CreationProperties.

Variable mongo_group :
  string -> string -> string -> string -> list Potion -> Js.Error + list Json.
Variable jwt_verify : string -> option string -> Js.Error + Claims.
Variable env : Env.

Let post_potion := Router.post_potion jwt_verify env.

(** The middleware answers 401 or 500 whenever it answers itself. *)
Lemma auth_rejection_status B (req : Request B) (r : Response) :
  Middleware.authMiddleware jwt_verify env req = Rejected r ->
  (res_status r = 401 \/ res_status r = 500) /\ res_cookies r = [].
Proof.
  unfold Middleware.authMiddleware.
  destruct (negb _ || negb _ || _).
  - intro H. inversion H. simpl. auto.
  - destruct (jwt_verify _ _) as [err | claims]; [|discriminate].
    destruct (Js.err_name err =? "TokenExpiredError")%string;
      [|destruct (Js.err_name err =? "JsonWebTokenError")%string];
      intro H; inversion H; simpl; auto.
Qed.

(** The middleware passes only a string cookie that verifies. *)
Lemma auth_next_verified B (req req' : Request B) :
  Middleware.authMiddleware jwt_verify env req = Next req' ->
  exists t claims,
    get_cookie req Middleware.COOKIE_NAME = Js.Str t
    /\ jwt_verify t (Middleware.JWT_SECRET env) = inr claims
    /\ req' = set_user claims req.
Proof.
  unfold Middleware.authMiddleware.
  destruct (get_cookie req Middleware.COOKIE_NAME) as [|t| |] eqn:Htok;
    simpl; try discriminate.
  destruct (negb _ || false || _); [discriminate|].
  destruct (jwt_verify t (Middleware.JWT_SECRET env)) as [err | claims] eqn:Hv.
  - destruct (Js.err_name err =? "TokenExpiredError")%string; [discriminate|].
    destruct (Js.err_name err =? "JsonWebTokenError")%string; discriminate.
  - intro H. inversion H. eauto.
Qed.

(** X1. Without a string cookie [demo_node+mongo_token] that verifies,
    POST /potions is answered 401 or 500 by the middleware and the world
    is exactly as before: nothing is stored and no call reaches the
    store, whatever the body. *)
Theorem post_potion_needs_verified_token (req : Request PotionFields) (w : World) :
  (forall t claims, get_cookie req Middleware.COOKIE_NAME = Js.Str t ->
                    jwt_verify t (Middleware.JWT_SECRET env) = inr claims -> False) ->
  exists r, post_potion req w = (Sent r, w)
            /\ (res_status r = 401 \/ res_status r = 500).
Proof.
  intro Hno. unfold post_potion, Router.post_potion.
  destruct (Middleware.authMiddleware jwt_verify env req) as [r | req'] eqn:Hauth.
  - exists r. split; [reflexivity|]. now apply (auth_rejection_status req).
  - exfalso. apply auth_next_verified in Hauth.
    destruct Hauth as (t & claims & Ht & Hv & _). eauto.
Qed.

(** X2. With a cookie that verifies and the store reachable, POST /potions
    is answered 201 with the submitted fields under a generated
    identifier, that document is appended to the potion collection, the
    users are untouched, and a listing that follows returns the former
    listing with the new document last. *)
Theorem post_potion_then_listing (req : Request PotionFields) B (lreq : Request B)
    (t : string) (claims : Claims) (w : World) :
  get_cookie req Middleware.COOKIE_NAME = Js.Str t ->
  Js.trim t <> EmptyString ->
  jwt_verify t (Middleware.JWT_SECRET env) = inr claims ->
  outage w = None ->
  exists saved w1 w2,
    post_potion req w = (Sent (mkResponse 201 (Some (JsonPotion saved)) [] []), w1)
    /\ fields saved = body req
    /\ potions w1 = (potions w ++ [saved])%list
    /\ users w1 = users w
    /\ issued w1 = (issued w ++ [PotionSave (body req)])%list
    /\ Router.get_potions lreq w1 =
         (Sent (mkResponse 200 (Some (JsonPotions (potions w ++ [saved])%list)) [] []), w2).
Proof.
  intros Htok Hblank Hverify Hup.
  exists (mkPotion (fresh w) (body req)). do 2 eexists.
  unfold post_potion, Router.post_potion.
  rewrite (auth_verifies jwt_verify env req Htok Hblank), Hverify.
  unfold try_await, Db.save_potion. simpl. rewrite Hup.
  split; [reflexivity|]. repeat split.
  unfold Router.get_potions, try_await, Db.find, read. simpl.
  rewrite filter_true. reflexivity.
Qed.

(** X3. Creation is not attributed: two requests with the same body whose
    cookies both verify, under whatever claims, get the same answer and
    leave the same world. *)
Theorem post_potion_ignores_identity (r1 r2 : Request PotionFields)
    (t1 t2 : string) (c1 c2 : Claims) (w : World) :
  get_cookie r1 Middleware.COOKIE_NAME = Js.Str t1 -> Js.trim t1 <> EmptyString ->
  get_cookie r2 Middleware.COOKIE_NAME = Js.Str t2 -> Js.trim t2 <> EmptyString ->
  jwt_verify t1 (Middleware.JWT_SECRET env) = inr c1 ->
  jwt_verify t2 (Middleware.JWT_SECRET env) = inr c2 ->
  body r1 = body r2 ->
  post_potion r1 w = post_potion r2 w.
Proof.
  intros H1 B1 H2 B2 V1 V2 Hbody. unfold post_potion, Router.post_potion.
  rewrite (auth_verifies jwt_verify env r1 H1 B1), V1.
  rewrite (auth_verifies jwt_verify env r2 H2 B2), V2.
  simpl. now rewrite Hbody.
Qed.

End CreationProperties.

(** ** Listings and filters *)

Lemma find_reachable (f : Filter) (w : World) :
  outage w = None -> Db.cast_filter f = None ->
  Db.find f w = (inr (filter (Db.potion_matches f) (potions w)), log (PotionFind f) w).
Proof.
  intros Hup Hcast. unfold Db.find, read. now rewrite Hcast, Hup.
Qed.

Lemma filter_none {A} (f : A -> bool) (l : list A) :
  (forall x, In x l -> f x = false) -> filter f l = [].
Proof.
  induction l as [|x l IH]; simpl; intro H; [reflexivity|].
  rewrite (H x) by auto. apply IH. intros y Hy. apply H. auto.
Qed.

Lemma within_widen (lo1 hi1 lo2 hi2 : Js.number) (q : Q) :
  Js.leb lo1 lo2 = true -> Js.leb hi2 hi1 = true ->
  within lo2 hi2 q -> within lo1 hi1 q.
Proof.
  unfold within. intros Hlo Hhi [H1 H2]. split.
  - destruct lo1, lo2; simpl in *; try discriminate; try tauto.
    apply Qle_bool_iff in Hlo. eapply Qle_trans; eauto.
  - destruct hi1, hi2; simpl in *; try discriminate; try tauto.
    apply Qle_bool_iff in Hhi. eapply Qle_trans; eauto.
Qed.

(** X4. With the store reachable, /names returns the names of exactly the
    documents /potions returns, one per document and in the same order:
    potions that share a name appear once each. *)
Theorem names_follow_listing B (req : Request B) (w : World) :
  outage w = None ->
  exists listed w1 w2,
    Router.get_potions req w =
      (Sent (mkResponse 200 (Some (JsonPotions listed)) [] []), w1)
    /\ Router.get_names req w =
      (Sent (mkResponse 200 (Some (JsonNames (map (fun p => name (fields p)) listed))) [] []), w2)
    /\ listed = potions w.
Proof.
  intro Hup. exists (potions w). do 2 eexists.
  unfold Router.get_potions, Router.get_names, try_await.
  rewrite !find_reachable by (auto; reflexivity).
  unfold Db.potion_matches. rewrite !filter_true. repeat split.
Qed.

(** X5. With the store reachable, /vendor/:vendor_id is answered 200 with
    exactly the stored documents whose vendor_id is that string, compared
    character for character; a vendor nobody sells under gives 200 with
    the empty list, not an error. *)
Theorem vendor_filter_exact B (req : Request B) (w : World) :
  outage w = None ->
  exists found w',
    Router.get_vendor req w =
      (Sent (mkResponse 200 (Some (JsonPotions found)) [] []), w')
    /\ (forall p, In p found <->
                  In p (potions w) /\ vendor_id (fields p) = params req "vendor_id")
    /\ ((forall p, In p (potions w) -> vendor_id (fields p) <> params req "vendor_id") ->
        found = []).
Proof.
  intro Hup. do 2 eexists. unfold Router.get_vendor, try_await.
  rewrite find_reachable by (auto; reflexivity).
  split; [reflexivity|]. split.
  - intro p. rewrite filter_In. unfold Db.potion_matches.
    rewrite String.eqb_eq. reflexivity.
  - intro Hnone. apply filter_none. intros p Hin.
    unfold Db.potion_matches. apply String.eqb_neq. now apply Hnone.
Qed.

(** X6. Bounds given the wrong way round are not an error: when [min]
    parses to a number greater than the number [max] parses to,
    /price-range is answered 200 with the empty list. *)
Theorem price_range_inverted_is_empty B (req : Request B) (w : World) (a b : Q) :
  Js.parseFloat (get_query req "min") = Js.Finite a ->
  Js.parseFloat (get_query req "max") = Js.Finite b ->
  Qlt b a ->
  outage w = None ->
  exists w', Router.get_price_range req w =
               (Sent (mkResponse 200 (Some (JsonPotions [])) [] []), w').
Proof.
  intros Ha Hb Hlt Hup. eexists. unfold Router.get_price_range, try_await.
  rewrite Ha, Hb. rewrite find_reachable by (auto; reflexivity).
  rewrite filter_none; [reflexivity|].
  intros p _. unfold Db.potion_matches, Js.leb.
  apply andb_false_iff.
  destruct (Qle_bool a (price (fields p))) eqn:H1; [right | now left].
  destruct (Qle_bool (price (fields p)) b) eqn:H2; [|reflexivity].
  exfalso. apply Qle_bool_iff in H1, H2.
  apply (Qlt_irrefl a). eapply Qle_lt_trans; [|exact Hlt].
  eapply Qle_trans; eauto.
Qed.

(** X7. Widening the bounds never loses a document: when the bounds of one
    request to /price-range enclose those of another, every document
    returned to the narrower request is returned to the wider one. *)
Theorem price_range_monotone B (narrow wide : Request B) (w : World)
    (found_n found_w : list Potion) (wn ww : World) :
  Js.leb (Js.parseFloat (get_query wide "min"))
         (Js.parseFloat (get_query narrow "min")) = true ->
  Js.leb (Js.parseFloat (get_query narrow "max"))
         (Js.parseFloat (get_query wide "max")) = true ->
  Router.get_price_range narrow w =
    (Sent (mkResponse 200 (Some (JsonPotions found_n)) [] []), wn) ->
  Router.get_price_range wide w =
    (Sent (mkResponse 200 (Some (JsonPotions found_w)) [] []), ww) ->
  incl found_n found_w.
Proof.
  intros Hlo Hhi Hn Hw.
  set (ln := Js.parseFloat (get_query narrow "min")) in *.
  set (hn := Js.parseFloat (get_query narrow "max")) in *.
  set (lw := Js.parseFloat (get_query wide "min")) in *.
  set (hw := Js.parseFloat (get_query wide "max")) in *.
  assert (Hrun : forall (r : Request B) found w',
            Router.get_price_range r w =
              (Sent (mkResponse 200 (Some (JsonPotions found)) [] []), w') ->
            found = filter (Db.potion_matches
                              (FindPrice (Js.parseFloat (get_query r "min"))
                                         (Js.parseFloat (get_query r "max"))))
                           (potions w)).
  { intros r found w'. unfold Router.get_price_range, try_await, Db.find, read.
    destruct (Db.cast_filter _); [discriminate|].
    destruct (outage w); [discriminate|].
    intro H. inversion H. reflexivity. }
  rewrite (Hrun _ _ _ Hn), (Hrun _ _ _ Hw). intros p Hp.
  apply filter_In in Hp. destruct Hp as [Hin Hm]. apply filter_In. split; [exact Hin|].
  apply matches_within. apply matches_within in Hm.
  exact (@within_widen lw hw ln hn (price (fields p)) Hlo Hhi Hm).
Qed.

(** ** Analytics *)


Lemma inject_length_nonneg {A} (l : list A) :
  Qle (inject_Z 0) (inject_Z (Z.of_nat (List.length l))).
Proof. rewrite <- Zle_Qle. lia. Qed.






Lemma unwind_keys_flat (ps : list Potion) :
  map fst (Db.unwind_categories ps) = flat_map (fun p => categories (fields p)) ps.
Proof.
  unfold Db.unwind_categories. induction ps as [|p ps IH]; simpl; [reflexivity|].
  rewrite map_app, IH, map_map. simpl. now rewrite map_id.
Qed.


Lemma distinct_values_length (l : list string) :
  List.length (Db.distinct_values l) <= List.length l.
Proof.
  induction l as [|x l IH]; simpl; [lia|].
  pose proof (filter_length_le (fun y => negb (y =? x)%string) (Db.distinct_values l)).
  lia.
Qed.



Section AnalyticsProperties.

Variable mongo_group :
  string -> string -> string -> string -> list Potion -> Js.Error + list Json.

Lemma aggregate_reachable (p : Pipeline) (w : World) :
  outage w = None ->
  Db.aggregate mongo_group p w =
  (Db.run_pipeline mongo_group p (potions w), log (PotionAggregate p) w).
Proof. intro Hup. unfold Db.aggregate, read. now rewrite Hup. Qed.

(** X8. With the store reachable, the number /distinct-categories reports
    is the number of groups /average-score-by-category returns; it is at
    most the number of category listings over all potions, and it is 0
    exactly when no potion lists a category. *)
Theorem distinct_categories_counts_groups B (req : Request B) (w : World) :
  outage w = None ->
  exists n groups w1 w2,
    Router.get_distinct_categories req w =
      (Sent (mkResponse 200 (Some (JsonDistinct n)) [] []), w1)
    /\ Router.get_average_score_by_category mongo_group req w =
      (Sent (mkResponse 200 (Some (JsonRows (Averages groups))) [] []), w2)
    /\ n = List.length groups
    /\ n <= List.length (flat_map (fun p => categories (fields p)) (potions w))
    /\ (n = 0 <-> forall p, In p (potions w) -> categories (fields p) = []).
Proof.
  intro Hup.
  set (listed := flat_map (fun p => categories (fields p)) (potions w)).
  exists (List.length (Db.distinct_values listed)),
         (Db.group_avg (Db.unwind_categories (potions w))).
  do 2 eexists. split; [|split; [|split; [|split]]].
  - unfold Router.get_distinct_categories, try_await, Db.distinct_categories, read.
    rewrite Hup. reflexivity.
  - unfold Router.get_average_score_by_category, try_await.
    rewrite aggregate_reachable by exact Hup. reflexivity.
  - unfold Db.group_avg. rewrite length_map, unwind_keys_flat. reflexivity.
  - apply distinct_values_length.
  - split.
    + intros Hzero p Hp.
      destruct (categories (fields p)) as [|c cs] eqn:Hc; [reflexivity|].
      assert (Hin : In c (Db.distinct_values listed)).
      { apply In_distinct_values. unfold listed. apply in_flat_map.
        exists p. split; [exact Hp|]. rewrite Hc. simpl. auto. }
      destruct (Db.distinct_values listed); [contradiction | discriminate].
    + intro Hempty. replace listed with (@nil string); [reflexivity|].
      unfold listed. symmetry. induction (potions w) as [|p ps IH]; simpl; [reflexivity|].
      rewrite (Hempty p) by (simpl; auto). simpl. apply IH.
      intros q Hq. apply Hempty. simpl. auto.
Qed.


(** X10. With the store reachable, /average-score-by-vendor partitions the
    collection: there is one group per vendor_id that occurs, no vendor
    twice, so every potion falls in the one group of its vendor, and the
    average of a group is taken over the scores of the potions of that
    vendor, in the order of the collection. *)
Theorem average_score_by_vendor_partitions B (req : Request B) (w : World) :
  outage w = None ->
  exists groups w',
    Router.get_average_score_by_vendor mongo_group req w =
      (Sent (mkResponse 200 (Some (JsonRows (Averages groups))) [] []), w')
    /\ NoDup (map fst groups)
    /\ (forall v, In v (map fst groups) <->
                  exists p, In p (potions w) /\ vendor_id (fields p) = v)
    /\ List.length groups <= List.length (potions w)
    /\ (forall v a, In (v, a) groups ->
          a = Db.average
                (map (fun p => score (fields p))
                     (filter (fun p => (vendor_id (fields p) =? v)%string) (potions w)))).
Proof.
  intro Hup. do 2 eexists.
  unfold Router.get_average_score_by_vendor, try_await.
  rewrite aggregate_reachable by exact Hup. simpl.
  set (rows := map (fun p => (vendor_id (fields p), score (fields p))) (potions w)).
  split; [reflexivity|]. split; [|split; [|split]].
  - rewrite group_avg_keys. apply NoDup_distinct_values.
  - intro v. rewrite group_avg_keys, In_distinct_values.
    unfold rows. rewrite map_map. simpl. rewrite in_map_iff.
    split; intros (p & H1 & H2); exists p; auto.
  - unfold Db.group_avg. rewrite length_map.
    etransitivity; [apply distinct_values_length|].
    unfold rows. now rewrite !length_map.
  - intros v a Hin. apply In_group_avg in Hin. destruct Hin as [_ ->]. f_equal.
    unfold Db.values_of, rows.
    induction (potions w) as [|p ps IH]; simpl; [reflexivity|].
    destruct (vendor_id (fields p) =? v)%string; simpl; now rewrite IH.
Qed.



(** X13. When [groupBy], [metric] and [field] are non-empty strings,
    /analytics/search never answers 400: it sends the store one [$group]
    stage built from the three strings as they came, prefixed with [$]
    where the pipeline takes an expression or an operator, and answers 200
    with what the store returns or 500 with the message of its error. *)
Theorem search_passes_parameters_through B (req : Request B) (w : World)
    (groupBy metric field : string) :
  get_query req "groupBy" = Js.Str groupBy -> groupBy <> EmptyString ->
  get_query req "metric" = Js.Str metric -> metric <> EmptyString ->
  get_query req "field" = Js.Str field -> field <> EmptyString ->
  let stage := GroupStage ("$" ++ groupBy) metric ("$" ++ metric) ("$" ++ field) in
  exists r w',
    Router.get_search mongo_group req w = (Sent r, w')
    /\ issued w' = (issued w ++ [PotionAggregate stage])%list
    /\ collections w' = collections w
    /\ (outage w = None ->
        r = match mongo_group ("$" ++ groupBy) metric ("$" ++ metric) ("$" ++ field)
                              (potions w) with
            | inr docs => mkResponse 200 (Some (JsonRows (Documents docs))) [] []
            | inl err => mkResponse 500 (Some (JsonError (Js.err_message err))) [] []
            end)
    /\ (res_status r = 200 \/ res_status r = 500).
Proof.
  intros Hg Hgne Hm Hmne Hf Hfne stage.
  unfold Router.get_search. cbv zeta. rewrite Hg, Hm, Hf.
  cbn [Js.truthy Js.to_string].
  rewrite !eqb_empty_false by assumption. cbn [negb orb]. fold stage.
  unfold try_await, Db.aggregate, read.
  destruct (outage w) as [msg|] eqn:Ho.
  - do 2 eexists. split; [reflexivity|]. repeat split; auto. discriminate.
  - simpl. destruct (mongo_group _ _ _ _ _) as [err | docs];
      do 2 eexists; (split; [reflexivity|]); repeat split; auto.
Qed.

End AnalyticsProperties.

(** ** Sanitizing *)

Lemma string_forall_app (f : ascii -> bool) (s t : string) :
  string_forall f (s ++ t) = string_forall f s && string_forall f t.
Proof.
  induction s as [|c s IH]; simpl; [reflexivity|]. now rewrite IH, andb_assoc.
Qed.

Lemma escape_char_safe (c : ascii) :
  string_forall (fun c' => negb (html_significant c')) (Validator.escape_char c) = true.
Proof. destruct c as [[] [] [] [] [] [] [] []]; reflexivity. Qed.

(** What [escape] returns holds none of the characters it replaces, the
    ampersand of the entities apart. *)
Lemma escape_safe (s : string) :
  string_forall (fun c => negb (html_significant c)) (Validator.escape s) = true.
Proof.
  induction s as [|c s IH]; simpl; [reflexivity|].
  now rewrite string_forall_app, escape_char_safe, IH.
Qed.

Lemma ltrim_blank (s : string) :
  string_forall Js.is_space s = true -> Js.ltrim s = EmptyString.
Proof.
  induction s as [|c s IH]; simpl; [reflexivity|].
  intro H. apply andb_true_iff in H. destruct H as [Hc Hs].
  rewrite Hc. now apply IH.
Qed.

Lemma trim_blank (s : string) :
  string_forall Js.is_space s = true -> Js.trim s = EmptyString.
Proof. intro H. unfold Js.trim. now rewrite (ltrim_blank s H). Qed.

Lemma In_validationResult (b : AuthRoutes.Credentials) (e : Validator.FieldError) :
  In e (AuthRoutes.validationResult b) ->
  AuthRoutes.validationResult b <> [].
Proof. intros Hin Hnil. rewrite Hnil in Hin. contradiction. Qed.

Section RegistrationProperties.

Variable hashPassword : nat -> string -> string.

Let post_register := AuthRoutes.post_register hashPassword.

(** X14. A field of /register that is absent or holds only white space is
    reported as missing: both rules of the field are listed (required,
    and length) and the answer is 400 with nothing stored. *)
Theorem register_blank_field_is_missing
    (req : Request AuthRoutes.Credentials) (w : World) :
  let blank := fun v : option string =>
    match v with
    | None => True
    | Some s => string_forall Js.is_space s = true
    end in
  let errors := AuthRoutes.validationResult (body req) in
  (blank (AuthRoutes.cred_name (body req)) ->
     In (Validator.mkFieldError "name" AuthRoutes.msg_name_required EmptyString) errors
     /\ In (Validator.mkFieldError "name" AuthRoutes.msg_name_length EmptyString) errors
     /\ post_register req w = (Sent (mkResponse 400 (Some (JsonErrors errors)) [] []), w))
  /\ (blank (AuthRoutes.cred_password (body req)) ->
     In (Validator.mkFieldError "password" AuthRoutes.msg_password_required EmptyString) errors
     /\ In (Validator.mkFieldError "password" AuthRoutes.msg_password_length EmptyString) errors
     /\ post_register req w = (Sent (mkResponse 400 (Some (JsonErrors errors)) [] []), w)).
Proof.
  intros blank errors.
  pose proof (validationResult_spec (body req)) as Hspec. cbv zeta in Hspec.
  fold errors in Hspec. destruct Hspec as (Hn1 & Hn2 & Hp1 & Hp2).
  split; intro Hblank.
  - assert (Hname : AuthRoutes.sanitized_name (body req) = EmptyString).
    { unfold AuthRoutes.sanitized_name.
      destruct (AuthRoutes.cred_name (body req)) as [s|]; simpl in *.
      - now rewrite (trim_blank s Hblank).
      - reflexivity. }
    rewrite Hname in Hn1, Hn2.
    assert (H1 : In (Validator.mkFieldError "name" AuthRoutes.msg_name_required EmptyString) errors)
      by (apply Hn1; reflexivity).
    split; [exact H1|]. split; [apply Hn2; simpl; lia|].
    apply (post_register_invalid hashPassword req w).
    exact (In_validationResult _ _ H1).
  - assert (Hpw : AuthRoutes.sanitized_password (body req) = EmptyString).
    { unfold AuthRoutes.sanitized_password.
      destruct (AuthRoutes.cred_password (body req)) as [s|]; simpl in *.
      - now rewrite (trim_blank s Hblank).
      - reflexivity. }
    rewrite Hpw in Hp1, Hp2.
    assert (H1 : In (Validator.mkFieldError "password" AuthRoutes.msg_password_required EmptyString) errors)
      by (apply Hp1; reflexivity).
    split; [exact H1|]. split; [apply Hp2; simpl; lia|].
    apply (post_register_invalid hashPassword req w).
    exact (In_validationResult _ _ H1).
Qed.

(** X15. Whenever /register answers 201, exactly one call was sent to the
    store, saving the name as trimmed and escaped and the password as
    trimmed; that name has 3 to 30 characters and none of the seven
    characters [html_significant] lists (angle brackets, quotes, slashes,
    backtick), the password has at least 6; one user of that name is
    appended and the potions are untouched. *)
Theorem register_created_is_sanitized
    (req : Request AuthRoutes.Credentials) (w w' : World) (r : Response) :
  post_register req w = (Sent r, w') ->
  res_status r = 201 ->
  let n := AuthRoutes.sanitized_name (body req) in
  let pw := AuthRoutes.sanitized_password (body req) in
  issued w' = (issued w ++ [UserSave n pw])%list
  /\ 3 <= String.length n <= 30
  /\ string_forall (fun c => negb (html_significant c)) n = true
  /\ 6 <= String.length pw
  /\ (exists u, users w' = (users w ++ [u])%list /\ user_name u = n)
  /\ potions w' = potions w
  /\ r = mkResponse 201 (Some (JsonMessage "Utilisateur créé")) [] [].
Proof.
  intros Hrun Hstatus n pw.
  destruct (list_eq_dec
              (fun a b : Validator.FieldError =>
                 ltac:(decide equality; apply string_dec) : {a = b} + {a <> b})
              (AuthRoutes.validationResult (body req)) []) as [Hv | Hv].
  2:{ unfold post_register in Hrun.
      rewrite (post_register_invalid hashPassword req w Hv) in Hrun.
      inversion Hrun; subst. discriminate. }
  unfold post_register in Hrun.
  rewrite (post_register_valid hashPassword req w Hv) in Hrun.
  fold n in Hrun. fold pw in Hrun.
  apply validationResult_nil in Hv. fold n in Hv. fold pw in Hv.
  destruct (outage w); [inversion Hrun; subst; discriminate|].
  destruct (Db.first_named (Some n) (users w));
    inversion Hrun; subst; [discriminate|]. simpl.
  repeat split; try lia.
  - apply escape_safe.
  - eexists. split; reflexivity.
Qed.

End RegistrationProperties.

(** ** Sessions *)

(** X16. Login and the middleware read their configuration apart: the
    middleware always reads the cookie [demo_node+mongo_token] and passes
    [process.env.JWT_SECRET] as it is, while login falls back to defaults.
    The cookie names agree exactly when COOKIE_NAME is unset, empty or
    that default; the secrets agree exactly when JWT_SECRET is set and not
    empty, and when it is unset login signs with [dev_secret] while the
    middleware verifies with no secret. *)
Theorem login_and_middleware_configuration (env : Env) :
  (AuthRoutes.COOKIE_NAME env = Middleware.COOKIE_NAME <->
     env_COOKIE_NAME env = None \/ env_COOKIE_NAME env = Some EmptyString
     \/ env_COOKIE_NAME env = Some "demo_node+mongo_token")
  /\ (Some (AuthRoutes.JWT_SECRET env) = Middleware.JWT_SECRET env <->
      exists s, env_JWT_SECRET env = Some s /\ s <> EmptyString)
  /\ (env_JWT_SECRET env = None ->
      AuthRoutes.JWT_SECRET env = "dev_secret" /\ Middleware.JWT_SECRET env = None).
Proof.
  unfold AuthRoutes.COOKIE_NAME, AuthRoutes.JWT_SECRET, Middleware.COOKIE_NAME,
         Middleware.JWT_SECRET, or_default.
  destruct env as [secret cname]. simpl. split; [|split].
  - destruct cname as [c|]; [|tauto].
    destruct (String.eqb_spec c EmptyString) as [-> | Hne]; [tauto|].
    split.
    + intros ->. auto.
    + intros [H | [H | H]]; congruence.
  - destruct secret as [s|].
    + destruct (String.eqb_spec s EmptyString) as [-> | Hne]; split.
      * discriminate.
      * intros (s' & Hs & Hne). congruence.
      * intros _. eauto.
      * reflexivity.
    + split; [discriminate | intros (s & Hs & _); discriminate].
  - intros ->. auto.
Qed.

Section SessionProperties.

Variable env : Env.
Variable jwt_sign : Payload -> string -> string -> string.
Variable jwt_verify : string -> option string -> Js.Error + Claims.
Variable comparePassword : User -> option string -> bool.
Variable bodyString : option string -> option string.

Let post_login := AuthRoutes.post_login env jwt_sign comparePassword bodyString.
Let post_potion := Router.post_potion jwt_verify env.

(** /login, by the state of the store and of the lookup. *)
Lemma post_login_cases (req : Request AuthRoutes.Credentials) (w : World) :
  let name := bodyString (AuthRoutes.cred_name (body req)) in
  let password := bodyString (AuthRoutes.cred_password (body req)) in
  post_login req w =
  (match outage w with
   | Some msg => Unhandled (network_error msg)
   | None =>
       match Db.first_named name (users w) with
       | None => Sent invalid_credentials
       | Some u =>
           if comparePassword u password
           then Sent (mkResponse 200 (Some (JsonMessage "Connecté avec succès"))
                        [mkCookie (AuthRoutes.COOKIE_NAME env)
                           (jwt_sign (mkPayload (user_id u) (user_name u))
                                     (AuthRoutes.JWT_SECRET env) "1d")
                           AuthRoutes.session_cookie] [])
           else Sent invalid_credentials
       end
   end,
   log (UserFindOne name) w).
Proof.
  intros name password.
  unfold post_login, AuthRoutes.post_login, Db.findOne, read.
  fold name. fold password.
  destruct (outage w) as [msg|]; [reflexivity|].
  destruct (Db.first_named name (users w)) as [u|]; [|reflexivity].
  destruct (comparePassword u password); reflexivity.
Qed.

(** X17. When the store cannot be reached, /login sends nothing: the
    rejection of the lookup leaves the handler uncaught, so the client
    gets neither a status nor a cookie from it, and nothing is stored. *)
Theorem login_store_failure_escapes
    (req : Request AuthRoutes.Credentials) (w : World) (msg : string) :
  outage w = Some msg ->
  exists w', post_login req w = (Unhandled (network_error msg), w')
             /\ res_status_of (fst (post_login req w)) = None
             /\ collections w' = collections w.
Proof.
  intro Hdown. eexists. rewrite post_login_cases, Hdown. repeat split.
Qed.

(** X18. /login never writes: in every case it sends the store the single
    lookup by name and leaves both collections as they were; a cookie is
    set only together with status 200, and then it is the one cookie named
    [COOKIE_NAME] and nothing is cleared. *)
Theorem login_only_reads (req : Request AuthRoutes.Credentials) (w : World) :
  let (outcome, w') := post_login req w in
  collections w' = collections w
  /\ issued w' =
     (issued w ++ [UserFindOne (bodyString (AuthRoutes.cred_name (body req)))])%list
  /\ (forall r, outcome = Sent r ->
        (res_status r = 200 \/ res_status r = 401)
        /\ (res_cookies r <> [] ->
            res_status r = 200
            /\ map cookie_name (res_cookies r) = [AuthRoutes.COOKIE_NAME env])
        /\ res_cleared r = []).
Proof.
  rewrite post_login_cases. cbv beta iota zeta.
  split; [reflexivity|]. split; [reflexivity|].
  intros r Hr.
  assert (Hshape : forall r' : Response,
            (res_status r' = 200 /\ res_cleared r' = []
             /\ map cookie_name (res_cookies r') = [AuthRoutes.COOKIE_NAME env])
            \/ r' = invalid_credentials ->
            (res_status r' = 200 \/ res_status r' = 401)
            /\ (res_cookies r' <> [] ->
                res_status r' = 200
                /\ map cookie_name (res_cookies r') = [AuthRoutes.COOKIE_NAME env])
            /\ res_cleared r' = []).
  { intros r' [(H1 & H2 & H3) | ->].
    - auto.
    - simpl. split; [auto|]. split; [|reflexivity].
      intro H. exfalso. apply H. reflexivity. }
  apply Hshape.
  destruct (outage w); [discriminate|].
  destruct (Db.first_named _ (users w)) as [u|].
  - destruct (comparePassword u _); inversion Hr; subst; simpl; auto.
  - inversion Hr; subst; auto.
Qed.

(** What a 200 of /login carries. *)
Lemma login_success_inversion (req : Request AuthRoutes.Credentials)
    (w w1 : World) (r : Response) :
  post_login req w = (Sent r, w1) -> res_status r = 200 ->
  outage w1 = None
  /\ exists u, In u (users w)
       /\ cookie_jar r =
          [(AuthRoutes.COOKIE_NAME env,
            Js.Str (jwt_sign (mkPayload (user_id u) (user_name u))
                             (AuthRoutes.JWT_SECRET env) "1d"))].
Proof.
  rewrite post_login_cases. cbv zeta. intros Hrun Hstatus.
  destruct (outage w) eqn:Ho; [discriminate|].
  destruct (Db.first_named _ (users w)) as [u|] eqn:Hfind.
  - destruct (comparePassword u _); inversion Hrun; subst; [|discriminate].
    split; [exact Ho|]. exists u. split; [|reflexivity].
    destruct (bodyString (AuthRoutes.cred_name (body req))) as [n|];
      [|discriminate].
    now apply first_named_In in Hfind.
  - inversion Hrun; subst. discriminate.
Qed.

(** The cookie of a successful login, sent back, passes the middleware
    and reaches the save. *)
Lemma login_cookie_creates
    (lreq : Request AuthRoutes.Credentials) (preq : Request PotionFields)
    (w w1 : World) (r : Response) :
  post_login lreq w = (Sent r, w1) ->
  res_status r = 200 ->
  AuthRoutes.COOKIE_NAME env = Middleware.COOKIE_NAME ->
  cookies preq = Some (cookie_jar r) ->
  (forall token, cookie_jar r = [(Middleware.COOKIE_NAME, Js.Str token)] ->
     Js.trim token <> EmptyString
     /\ exists claims, jwt_verify token (Middleware.JWT_SECRET env) = inr claims) ->
  post_potion preq w1 =
    (Sent (mkResponse 201 (Some (JsonPotion (mkPotion (fresh w1) (body preq)))) [] []),
     mkWorld (potions w1 ++ [mkPotion (fresh w1) (body preq)]) (users w1) None
             (S (fresh w1)) (issued w1 ++ [PotionSave (body preq)])).
Proof.
  intros Hlogin Hstatus Hnames Hjar Hlib.
  destruct (login_success_inversion lreq w Hlogin Hstatus) as (Hup & u & _ & Hcookie).
  rewrite Hnames in Hcookie.
  destruct (Hlib _ Hcookie) as (Hblank & claims & Hverify).
  assert (Htok : get_cookie preq Middleware.COOKIE_NAME
                 = Js.Str (jwt_sign (mkPayload (user_id u) (user_name u))
                                    (AuthRoutes.JWT_SECRET env) "1d")).
  { unfold get_cookie. rewrite Hjar, Hcookie. simpl.
    rewrite ?String.eqb_refl. reflexivity. }
  unfold post_potion, Router.post_potion.
  rewrite (auth_verifies jwt_verify env preq Htok Hblank), Hverify.
  unfold try_await, Db.save_potion. simpl. rewrite Hup. reflexivity.
Qed.

(** X19. Login opens creation when the two files agree: if login answered
    200, the cookie names of login and middleware agree, and the token
    login signed is non-blank and verifies under the secret the
    middleware passes, then a POST /potions carrying the cookies of that
    answer is answered 201 with the submitted fields stored. *)
Theorem login_cookie_opens_creation
    (lreq : Request AuthRoutes.Credentials) (preq : Request PotionFields)
    (w w1 : World) (r : Response) :
  post_login lreq w = (Sent r, w1) ->
  res_status r = 200 ->
  AuthRoutes.COOKIE_NAME env = Middleware.COOKIE_NAME ->
  cookies preq = Some (cookie_jar r) ->
  (forall token, cookie_jar r = [(Middleware.COOKIE_NAME, Js.Str token)] ->
     Js.trim token <> EmptyString
     /\ exists claims, jwt_verify token (Middleware.JWT_SECRET env) = inr claims) ->
  exists saved w2,
    post_potion preq w1 = (Sent (mkResponse 201 (Some (JsonPotion saved)) [] []), w2)
    /\ fields saved = body preq
    /\ potions w2 = (potions w1 ++ [saved])%list.
Proof.
  intros Hlogin Hstatus Hnames Hjar Hlib.
  do 2 eexists.
  rewrite (login_cookie_creates lreq preq w Hlogin Hstatus Hnames Hjar Hlib).
  repeat split.
Qed.

(** X20. When COOKIE_NAME renames the cookie of login away from the name
    the middleware reads, the session of a successful login does not open
    creation: a POST /potions carrying the cookies of the 200 answer is
    answered 401 as if no token had been sent, and nothing is stored. *)
Theorem renamed_cookie_locks_creation
    (lreq : Request AuthRoutes.Credentials) (preq : Request PotionFields)
    (w w1 w2 : World) (r : Response) :
  post_login lreq w = (Sent r, w1) ->
  res_status r = 200 ->
  AuthRoutes.COOKIE_NAME env <> Middleware.COOKIE_NAME ->
  cookies preq = Some (cookie_jar r) ->
  post_potion preq w2 =
    (Sent (mkResponse 401 (Some (JsonError Middleware.msg_missing)) [] []), w2).
Proof.
  intros Hlogin Hstatus Hnames Hjar.
  destruct (login_success_inversion lreq w Hlogin Hstatus) as (_ & u & _ & Hcookie).
  unfold post_potion, Router.post_potion.
  rewrite (auth_no_token jwt_verify env preq); [reflexivity|].
  left. unfold get_cookie. rewrite Hjar, Hcookie. simpl.
  apply String.eqb_neq in Hnames. now rewrite Hnames.
Qed.

(** X21. Logout does not end the session on the server: /logout answers
    200, sets no cookie, asks the client to clear [COOKIE_NAME] and leaves
    the world as it was; so after a successful login followed by a
    logout, a POST /potions that still carries the cookie of the login is
    answered 201 and stores its fields, under the conditions under which
    it would have been before the logout. *)
Theorem logout_keeps_token_valid B (out : Request B)
    (lreq : Request AuthRoutes.Credentials) (preq : Request PotionFields)
    (w w1 : World) (r : Response) :
  post_login lreq w = (Sent r, w1) ->
  res_status r = 200 ->
  AuthRoutes.COOKIE_NAME env = Middleware.COOKIE_NAME ->
  cookies preq = Some (cookie_jar r) ->
  (forall token, cookie_jar r = [(Middleware.COOKIE_NAME, Js.Str token)] ->
     Js.trim token <> EmptyString
     /\ exists claims, jwt_verify token (Middleware.JWT_SECRET env) = inr claims) ->
  let (outcome, w2) := AuthRoutes.get_logout env out w1 in
  outcome = Sent (mkResponse 200 (Some (JsonMessage "Déconnecté")) []
                             [AuthRoutes.COOKIE_NAME env])
  /\ w2 = w1
  /\ exists saved w3,
       post_potion preq w2 = (Sent (mkResponse 201 (Some (JsonPotion saved)) [] []), w3)
       /\ fields saved = body preq
       /\ potions w3 = (potions w1 ++ [saved])%list.
Proof.
  intros Hlogin Hstatus Hnames Hjar Hlib.
  unfold AuthRoutes.get_logout. split; [reflexivity|]. split; [reflexivity|].
  do 2 eexists.
  rewrite (login_cookie_creates lreq preq w Hlogin Hstatus Hnames Hjar Hlib).
  repeat split.
Qed.

End SessionProperties.

(** ** The surface as a whole *)

Section SurfaceProperties.

Variable mongo_group :
  string -> string -> string -> string -> list Potion -> Js.Error + list Json.
Variable jwt_verify : string -> option string -> Js.Error + Claims.
Variable env : Env.
Variable jwt_sign : Payload -> string -> string -> string.
Variable hashPassword : nat -> string -> string.
Variable comparePassword : User -> option string -> bool.
Variable bodyString : option string -> option string.

Let get {B} := @Router.get mongo_group B.
Let post_potion := Router.post_potion jwt_verify env.
Let post_register := AuthRoutes.post_register hashPassword.
Let post_login := AuthRoutes.post_login env jwt_sign comparePassword bodyString.

(** X22. When the store cannot be reached, every GET route that gets as
    far as the store is answered 500 with the driver's message.  The two
    exceptions answer before the store is asked: /analytics/search with a
    parameter missing (400) and /price-range with a bound that is not a
    number (500 with the cast error). *)
Theorem get_routes_unreachable_store B (route : Router.GetRoute) (req : Request B)
    (w : World) (msg : string) :
  outage w = Some msg ->
  exists r w',
    get route req w = (Sent r, w')
    /\ (r = mkResponse 500 (Some (JsonError msg)) [] []
        \/ (route = Router.Search
            /\ r = mkResponse 400 (Some (JsonError Router.msg_missing_parameters)) [] []
            /\ w' = w)
        \/ (route = Router.PriceRange
            /\ r = mkResponse 500 (Some (JsonError (Js.err_message (Db.cast_error "price")))) [] []
            /\ w' = w)).
Proof.
  intro Hdown.
  assert (Hread : forall A c (answer : list Potion -> list User -> Js.Error + A) ok,
            try_await (read c answer) ok Router.server_error w
            = (Sent (mkResponse 500 (Some (JsonError msg)) [] []), log c w)).
  { intros A c answer ok. unfold try_await, read. rewrite Hdown. reflexivity. }
  assert (Hfind : forall f ok, Db.cast_filter f = None ->
            try_await (Db.find f) ok Router.server_error w
            = (Sent (mkResponse 500 (Some (JsonError msg)) [] []), log (PotionFind f) w)).
  { intros f ok Hcast. unfold try_await, Db.find, read. rewrite Hcast, Hdown.
    reflexivity. }
  destruct route; unfold get, Router.get, Router.get_potions, Router.get_names,
    Router.get_vendor, Router.get_price_range, Router.get_distinct_categories,
    Router.get_average_score_by_vendor, Router.get_average_score_by_category,
    Router.get_strength_flavor_ratio, Router.get_search, Db.aggregate,
    Db.distinct_categories.
  - do 2 eexists. split; [apply Hfind; reflexivity | left; reflexivity].
  - do 2 eexists. split; [apply Hfind; reflexivity | left; reflexivity].
  - do 2 eexists. split; [apply Hfind; reflexivity | left; reflexivity].
  - destruct (Db.cast_filter (FindPrice (Js.parseFloat (get_query req "min"))
                                        (Js.parseFloat (get_query req "max"))))
      as [e|] eqn:Hcast.
    + do 2 eexists. unfold try_await, Db.find. rewrite Hcast.
      split; [reflexivity|]. right. right.
      unfold Db.cast_filter in Hcast.
      destruct (Js.isNaN _ || Js.isNaN _); inversion Hcast. repeat split.
    + do 2 eexists. split; [apply Hfind; exact Hcast | left; reflexivity].
  - do 2 eexists. split; [apply Hread | left; reflexivity].
  - do 2 eexists. split; [apply Hread | left; reflexivity].
  - do 2 eexists. split; [apply Hread | left; reflexivity].
  - do 2 eexists. split; [apply Hread | left; reflexivity].
  - destruct (negb _ || negb _ || negb _).
    + do 2 eexists. split; [reflexivity|]. right. left. repeat split.
    + do 2 eexists. split; [apply Hread | left; reflexivity].
Qed.

(** X23. The statuses the handlers can send.  A GET route answers 200 or
    500, and /analytics/search alone may answer 400; POST /potions answers
    201, 400, 401 or 500; /register answers 201, 400 or 500; /login
    answers 200 or 401, or sends nothing when the store cannot be
    reached.  In particular no read is ever answered 401 and no handler
    answers 404 or 409. *)
Theorem handlers_send_documented_statuses :
  (forall B route (req : Request B) w,
     status_in (match route with
                | Router.Search => [200; 400; 500]
                | _ => [200; 500]
                end) (fst (get route req w)))
  /\ (forall req w, status_in [201; 400; 401; 500] (fst (post_potion req w)))
  /\ (forall req w, status_in [201; 400; 500] (fst (post_register req w)))
  /\ (forall req w, status_in [200; 401] (fst (post_login req w))
                    \/ (outage w <> None
                        /\ exists err, fst (post_login req w) = Unhandled err)).
Proof.
  assert (Htry : forall A (m : Store A) (ok : A -> Response) handle codes w,
            (forall a, In (res_status (ok a)) codes) ->
            (forall e, In (res_status (handle e)) codes) ->
            status_in codes (fst (try_await m ok handle w))).
  { intros A m ok handle codes w Hok Hh. unfold try_await.
    destruct (m w) as [[e | a] w']; eexists; split; try reflexivity; auto. }
  split; [|split; [|split]].
  - intros B route req w.
    destruct route; unfold get, Router.get, Router.get_potions, Router.get_names,
      Router.get_vendor, Router.get_price_range, Router.get_distinct_categories,
      Router.get_average_score_by_vendor, Router.get_average_score_by_category,
      Router.get_strength_flavor_ratio, Router.get_search;
      try (apply Htry; intros; simpl; auto).
    destruct (negb _ || negb _ || negb _).
    + eexists. split; [reflexivity | simpl; auto].
    + apply Htry; intros; simpl; auto.
  - intros req w. unfold post_potion, Router.post_potion.
    destruct (Middleware.authMiddleware jwt_verify env req) as [r | req'] eqn:Hauth.
    + exists r. split; [reflexivity|].
      destruct (auth_rejection_status jwt_verify env req Hauth) as [[-> | ->] _];
        simpl; auto.
    + apply Htry; intros; simpl; auto.
  - intros req w. unfold post_register, AuthRoutes.post_register.
    destruct (negb _).
    + eexists. split; [reflexivity | simpl; auto].
    + apply Htry; intros; [simpl; auto|].
      destruct (AuthRoutes.code_is 11000 e); simpl; auto.
  - intros req w. unfold post_login, AuthRoutes.post_login, Db.findOne, read.
    destruct (outage w) as [msg|].
    + right. split; [discriminate | eexists; reflexivity].
    + left. destruct (Db.first_named _ (users w)) as [u|].
      * destruct (negb _); eexists; (split; [reflexivity | simpl; auto]).
      * eexists. split; [reflexivity | simpl; auto].
Qed.

End SurfaceProperties.

(* ================================================================= *)
(** ** The further properties on the sample instance *)

Lemma post_potion_needs_verified_token_witness :
  exists r,
    Router.post_potion Sample.jwt_verify Sample.env
      (Sample.request [] [] Sample.venom) Sample.world = (Sent r, Sample.world)
    /\ res_status r = 401.
Proof.
  destruct (@post_potion_needs_verified_token Sample.jwt_verify Sample.env
              (Sample.request [] [] Sample.venom) Sample.world) as (r & Hrun & _).
  - intros t claims Hcookie. discriminate Hcookie.
  - exists r. split; [exact Hrun|].
    vm_compute in Hrun. inversion Hrun. reflexivity.
Defined.

Lemma post_potion_then_listing_witness :
  exists saved w1 w2,
    Router.post_potion Sample.jwt_verify Sample.env
      (Sample.request [] (Sample.session "good") Sample.venom) Sample.world
    = (Sent (mkResponse 201 (Some (JsonPotion saved)) [] []), w1)
    /\ Router.get_potions (Sample.request [] [] tt) w1
       = (Sent (mkResponse 200
                  (Some (JsonPotions (potions Sample.world ++ [saved])%list)) [] []), w2).
Proof.
  destruct (@post_potion_then_listing Sample.jwt_verify Sample.env
              (Sample.request [] (Sample.session "good") Sample.venom)
              unit (Sample.request [] [] tt)
              "good" Sample.alice_claims Sample.world)
    as (saved & w1 & w2 & Hcreate & _ & _ & _ & _ & Hlist).
  - reflexivity.
  - discriminate.
  - reflexivity.
  - reflexivity.
  - exists saved, w1, w2. split; [exact Hcreate | exact Hlist].
Defined.

Lemma post_potion_ignores_identity_witness :
  Router.post_potion Sample.jwt_verify_name Sample.env
    (Sample.request [] (Sample.session "alice") Sample.venom) Sample.world
  = Router.post_potion Sample.jwt_verify_name Sample.env
      (Sample.request [] (Sample.session "bob") Sample.venom) Sample.world.
Proof.
  apply (@post_potion_ignores_identity Sample.jwt_verify_name Sample.env
           (Sample.request [] (Sample.session "alice") Sample.venom)
           (Sample.request [] (Sample.session "bob") Sample.venom)
           "alice" "bob"
           (mkClaims (mkPayload 0 "alice") 0 86400)
           (mkClaims (mkPayload 0 "bob") 0 86400) Sample.world);
    try reflexivity; discriminate.
Defined.

Lemma names_follow_listing_witness :
  exists w2,
    Router.get_names (Sample.request [] [] tt) Sample.world
    = (Sent (mkResponse 200 (Some (JsonNames ["Elixir"; "Tonic"])) [] []), w2).
Proof.
  destruct (@names_follow_listing unit (Sample.request [] [] tt) Sample.world)
    as (listed & w1 & w2 & _ & Hnames & Hlisted).
  - reflexivity.
  - exists w2. rewrite Hnames, Hlisted. reflexivity.
Defined.

Lemma vendor_filter_exact_witness :
  exists w',
    Router.get_vendor (Sample.request [] [] tt) Sample.shop
    = (Sent (mkResponse 200
               (Some (JsonPotions [mkPotion 0 Sample.elixir; mkPotion 3 Sample.venom]))
               [] []), w').
Proof.
  destruct (@vendor_filter_exact unit (Sample.request [] [] tt) Sample.shop)
    as (found & w' & Hrun & _).
  - reflexivity.
  - exists w'. rewrite Hrun. vm_compute in Hrun. inversion Hrun. reflexivity.
Defined.

Lemma price_range_inverted_is_empty_witness :
  exists w',
    Router.get_price_range
      (Sample.request [("min", Js.Str "20"); ("max", Js.Str "10")] [] tt) Sample.shop
    = (Sent (mkResponse 200 (Some (JsonPotions [])) [] []), w').
Proof.
  apply (@price_range_inverted_is_empty unit
           (Sample.request [("min", Js.Str "20"); ("max", Js.Str "10")] [] tt)
           Sample.shop (inject_Z 20) (inject_Z 10)); reflexivity.
Defined.

Lemma price_range_monotone_witness :
  incl [mkPotion 0 Sample.elixir; mkPotion 1 Sample.tonic]
       [mkPotion 0 Sample.elixir; mkPotion 1 Sample.tonic; mkPotion 3 Sample.venom].
Proof.
  apply (@price_range_monotone unit
           (Sample.request [("min", Js.Str "10"); ("max", Js.Str "20")] [] tt)
           (Sample.request [("min", Js.Str "5"); ("max", Js.Str "30")] [] tt)
           Sample.shop
           [mkPotion 0 Sample.elixir; mkPotion 1 Sample.tonic]
           [mkPotion 0 Sample.elixir; mkPotion 1 Sample.tonic; mkPotion 3 Sample.venom]
           (log (PotionFind (FindPrice (Js.Finite (inject_Z 10)) (Js.Finite (inject_Z 20))))
                Sample.shop)
           (log (PotionFind (FindPrice (Js.Finite (inject_Z 5)) (Js.Finite (inject_Z 30))))
                Sample.shop));
    reflexivity.
Defined.

Lemma distinct_categories_counts_groups_witness :
  exists w1,
    Router.get_distinct_categories (Sample.request [] [] tt) Sample.world
    = (Sent (mkResponse 200 (Some (JsonDistinct 3)) [] []), w1).
Proof.
  destruct (@distinct_categories_counts_groups Sample.mongo_group unit
              (Sample.request [] [] tt) Sample.world)
    as (n & groups & w1 & w2 & Hrun & _).
  - reflexivity.
  - exists w1. rewrite Hrun. vm_compute in Hrun. inversion Hrun. reflexivity.
Defined.


Lemma average_score_by_vendor_partitions_witness :
  exists groups w',
    Router.get_average_score_by_vendor Sample.mongo_group
      (Sample.request [] [] tt) Sample.shop
    = (Sent (mkResponse 200 (Some (JsonRows (Averages groups))) [] []), w')
    /\ List.length groups <= 3.
Proof.
  destruct (@average_score_by_vendor_partitions Sample.mongo_group unit
              (Sample.request [] [] tt) Sample.shop)
    as (groups & w' & Hrun & _ & _ & Hlen & _).
  - reflexivity.
  - exists groups, w'. split; [exact Hrun | exact Hlen].
Defined.



Lemma search_passes_parameters_through_witness :
  exists r w',
    Router.get_search Sample.mongo_group
      (Sample.request [("groupBy", Js.Str "vendor_id"); ("metric", Js.Str "median");
                       ("field", Js.Str "price")] [] tt) Sample.world
    = (Sent r, w')
    /\ issued w' =
       [PotionAggregate (GroupStage "$vendor_id" "median" "$median" "$price")].
Proof.
  destruct (@search_passes_parameters_through Sample.mongo_group unit
              (Sample.request [("groupBy", Js.Str "vendor_id"); ("metric", Js.Str "median");
                               ("field", Js.Str "price")] [] tt)
              Sample.world "vendor_id" "median" "price")
    as (r & w' & Hrun & Hissued & _);
    try reflexivity; try discriminate.
  exists r, w'. split; [exact Hrun | exact Hissued].
Defined.

Lemma register_created_is_sanitized_witness :
  issued (snd (AuthRoutes.post_register Sample.hashPassword
                 (Sample.credentials " <bob> " " secret1 ") Sample.world))
  = [UserSave "&lt;bob&gt;" "secret1"].
Proof.
  destruct (@register_created_is_sanitized Sample.hashPassword
              (Sample.credentials " <bob> " " secret1 ") Sample.world
              (snd (AuthRoutes.post_register Sample.hashPassword
                      (Sample.credentials " <bob> " " secret1 ") Sample.world))
              (mkResponse 201 (Some (JsonMessage "Utilisateur créé")) [] []))
    as (Hissued & _).
  - reflexivity.
  - reflexivity.
  - rewrite Hissued. reflexivity.
Defined.

Lemma login_store_failure_escapes_witness :
  res_status_of
    (fst (AuthRoutes.post_login Sample.env Sample.jwt_sign Sample.comparePassword
            Sample.bodyString (Sample.credentials "alice" "hunter22") Sample.down))
  = None.
Proof.
  destruct (@login_store_failure_escapes Sample.env Sample.jwt_sign
              Sample.comparePassword Sample.bodyString
              (Sample.credentials "alice" "hunter22") Sample.down
              "connection refused") as (w' & _ & Hnone & _).
  - reflexivity.
  - exact Hnone.
Defined.

Lemma login_cookie_opens_creation_witness :
  exists saved w2,
    Router.post_potion Sample.jwt_verify_name Sample.env
      (Sample.request [] [("demo_node+mongo_token", Js.Str "alice")] Sample.venom)
      (snd (AuthRoutes.post_login Sample.env Sample.jwt_sign Sample.comparePassword
              Sample.bodyString (Sample.credentials "alice" "hunter22") Sample.world))
    = (Sent (mkResponse 201 (Some (JsonPotion saved)) [] []), w2)
    /\ fields saved = Sample.venom.
Proof.
  destruct (@login_cookie_opens_creation Sample.env Sample.jwt_sign
              Sample.jwt_verify_name Sample.comparePassword Sample.bodyString
              (Sample.credentials "alice" "hunter22")
              (Sample.request [] [("demo_node+mongo_token", Js.Str "alice")] Sample.venom)
              Sample.world
              (snd (AuthRoutes.post_login Sample.env Sample.jwt_sign
                      Sample.comparePassword Sample.bodyString
                      (Sample.credentials "alice" "hunter22") Sample.world))
              (mkResponse 200 (Some (JsonMessage "Connecté avec succès"))
                 [mkCookie "demo_node+mongo_token" "alice" AuthRoutes.session_cookie] []))
    as (saved & w2 & Hrun & Hfields & _).
  - reflexivity.
  - reflexivity.
  - reflexivity.
  - reflexivity.
  - intros token Hjar. inversion Hjar. split; [discriminate|].
    eexists. reflexivity.
  - exists saved, w2. split; [exact Hrun | exact Hfields].
Defined.

Lemma renamed_cookie_locks_creation_witness :
  res_status_of
    (fst (Router.post_potion Sample.jwt_verify_name Sample.env_renamed
            (Sample.request [] [("sid", Js.Str "alice")] Sample.venom) Sample.world))
  = Some 401.
Proof.
  rewrite (@renamed_cookie_locks_creation Sample.env_renamed Sample.jwt_sign
             Sample.jwt_verify_name Sample.comparePassword Sample.bodyString
             (Sample.credentials "alice" "hunter22")
             (Sample.request [] [("sid", Js.Str "alice")] Sample.venom)
             Sample.world
             (snd (AuthRoutes.post_login Sample.env_renamed Sample.jwt_sign
                     Sample.comparePassword Sample.bodyString
                     (Sample.credentials "alice" "hunter22") Sample.world))
             Sample.world
             (mkResponse 200 (Some (JsonMessage "Connecté avec succès"))
                [mkCookie "sid" "alice" AuthRoutes.session_cookie] [])).
  - reflexivity.
  - reflexivity.
  - reflexivity.
  - discriminate.
  - reflexivity.
Defined.

Lemma get_routes_unreachable_store_witness :
  res_status_of
    (fst (Router.get Sample.mongo_group Router.AverageScoreByVendor
            (Sample.request [] [] tt) Sample.down)) = Some 500.
Proof.
  destruct (@get_routes_unreachable_store Sample.mongo_group unit
              Router.AverageScoreByVendor (Sample.request [] [] tt) Sample.down
              "connection refused") as (r & w' & Hrun & _).
  - reflexivity.
  - rewrite Hrun. vm_compute in Hrun. inversion Hrun. reflexivity.
Defined.

Lemma logout_keeps_token_valid_witness :
  exists saved w3,
    Router.post_potion Sample.jwt_verify_name Sample.env
      (Sample.request [] [("demo_node+mongo_token", Js.Str "alice")] Sample.venom)
      (snd (AuthRoutes.get_logout Sample.env (Sample.request [] [] tt)
              (snd (AuthRoutes.post_login Sample.env Sample.jwt_sign
                      Sample.comparePassword Sample.bodyString
                      (Sample.credentials "alice" "hunter22") Sample.world))))
    = (Sent (mkResponse 201 (Some (JsonPotion saved)) [] []), w3)
    /\ fields saved = Sample.venom.
Proof.
  pose proof (@logout_keeps_token_valid Sample.env Sample.jwt_sign
                Sample.jwt_verify_name Sample.comparePassword Sample.bodyString
                unit (Sample.request [] [] tt)
                (Sample.credentials "alice" "hunter22")
                (Sample.request [] [("demo_node+mongo_token", Js.Str "alice")] Sample.venom)
                Sample.world
                (snd (AuthRoutes.post_login Sample.env Sample.jwt_sign
                        Sample.comparePassword Sample.bodyString
                        (Sample.credentials "alice" "hunter22") Sample.world))
                (mkResponse 200 (Some (JsonMessage "Connecté avec succès"))
                   [mkCookie "demo_node+mongo_token" "alice" AuthRoutes.session_cookie] []))
    as H.
  destruct (AuthRoutes.get_logout Sample.env (Sample.request [] [] tt)
              (snd (AuthRoutes.post_login Sample.env Sample.jwt_sign
                      Sample.comparePassword Sample.bodyString
                      (Sample.credentials "alice" "hunter22") Sample.world)))
    as [outcome w2] eqn:Hout.
  destruct H as (_ & _ & saved & w3 & Hrun & Hfields & _).
  - reflexivity.
  - reflexivity.
  - reflexivity.
  - reflexivity.
  - intros token Hjar. inversion Hjar. split; [discriminate|].
    eexists. reflexivity.
  - exists saved, w3. split; [exact Hrun | exact Hfields].
Defined.
